(** * The multi-agent debate story generator

    A shallow embedding of [gemini_debate_story_generator.py]
    (class [StoryDebateGenerator]) and the properties of its pipeline:
    fence stripping, the three-role debate with its fallbacks, the
    section loop, story assembly and token accounting.

    Conventions of the embedding.
    - A Python [str] is a list of Unicode code points ([list N]);
      [lit] turns an ASCII literal of the source into such a list.
    - The Python values the program handles (results of [json.loads],
      [None], drafts) are the type [pyval].
    - The generator object is the record [generator]; a method is a
      function from the generator before the call to an outcome and the
      generator after it. An outcome is a returned value or a raised
      exception; what was mutated before a [raise] stays mutated.
    - [print] has no effect on the generator and is left out; the
      subscripts evaluated to build a printed line are kept, since they
      can raise.
    - The world outside the program is a parameter: the chat-completion
      service ([api]), [json.loads], [str()] of a value that is not a
      [str], and whether a file can be read or written. *)

From Stdlib Require Import ZArith NArith List String Ascii Lia DecimalString.
From Stdlib Require Import Floats.SpecFloat.
From stdpp Require Import gmap strings list fin_maps.

Set Warnings "-register-all".
Set Default Proof Using "Type".

Local Open Scope Z_scope.

(** ** Text *)

Abbreviation str := (list N).

Definition lit (s : string) : str :=
  map N_of_ascii (list_ascii_of_string s).

(** The double-quote character, a quoted literal and the newline. *)
Definition dq : str := [34%N].
Definition q (s : string) : str := dq ++ lit s ++ dq.
Definition nl : str := [10%N].

(** [str.isspace] on one code point: the code points CPython's
    [_PyUnicode_IsWhitespace] accepts. *)
Definition isspace (c : N) : bool :=
  ((9 <=? c) && (c <=? 13) || (28 <=? c) && (c <=? 32)
   || (c =? 133) || (c =? 160) || (c =? 5760)
   || (8192 <=? c) && (c <=? 8202)
   || (c =? 8232) || (c =? 8233) || (c =? 8239) || (c =? 8287)
   || (c =? 12288))%N.

Fixpoint lstrip (s : str) : str :=
  match s with
  | c :: s' => if isspace c then lstrip s' else s
  | [] => []
  end.

Definition rstrip (s : str) : str := rev (lstrip (rev s)).

(** [s.strip()] *)
Definition strip (s : str) : str := rstrip (lstrip s).

Definition str_eqb (a b : str) : bool := bool_decide (a = b).

(** [s.startswith(p)] *)
Definition startswith (s p : str) : bool :=
  str_eqb (firstn (length p) s) p.

(** [s.endswith(p)] *)
Definition endswith (s p : str) : bool :=
  str_eqb (skipn (length s - length p) s) p.

(** [sep.join(parts)] *)
Fixpoint join (sep : str) (parts : list str) : str :=
  match parts with
  | [] => []
  | [p] => p
  | p :: rest => p ++ sep ++ join sep rest
  end.

(** [str(n)] for a non-negative integer. *)
Definition str_of_nat (n : nat) : str :=
  lit (DecimalString.NilZero.string_of_uint (Nat.to_uint n)).

(** ** Python values *)

Inductive pyval :=
| PNone
| PBool (b : bool)
| PInt (z : Z)
| PFloat (f : spec_float)
| PStr (s : str)
| PList (l : list pyval)
| PDict (d : gmap str pyval).

(** Truth value of a Python value, as [if v:] tests it. *)
Definition truthy (v : pyval) : bool :=
  match v with
  | PNone => false
  | PBool b => b
  | PInt z => negb (z =? 0)
  | PFloat f => match f with S754_zero _ => false | _ => true end
  | PStr s => match s with [] => false | _ => true end
  | PList l => match l with [] => false | _ => true end
  | PDict d => negb (bool_decide (d = ∅))
  end.

(** Truth value of an [Optional[str]]. *)
Definition truthy_opt (r : option str) : bool :=
  match r with
  | Some (_ :: _) => true
  | _ => false
  end.

(** ** Outcomes and the generator *)

Inductive exn :=
| KeyError (key : str)
| TypeError
| AttributeError
| JSONDecodeError
| OSError.

Inductive outcome (A : Type) :=
| Return (a : A)
| Raise (e : exn).
Arguments Return {A} a.
Arguments Raise {A} e.

Record agent_stats := mk_agent_stats {
  prompt_tokens : Z;
  completion_tokens : Z;
  calls : Z
}.

Record usage_totals := mk_usage_totals {
  total_prompt_tokens : Z;
  total_completion_tokens : Z;
  total_tokens : Z;
  api_calls : Z;
  by_agent : gmap str agent_stats
}.

(** One entry of [self.debate_log]. *)
Record debate_record := mk_debate_record {
  dr_section : pyval;
  dr_title : pyval;
  dr_affirmative_draft : str;
  dr_negative_draft : str;
  dr_judge_decision : pyval
}.

(** The generator object. [requests] is the sequence of requests sent
    to the service so far, as [(agent_type, prompt)], oldest first; the
    program does not read it. *)
Record generator := mk_generator {
  debate_log : list debate_record;
  token_usage : usage_totals;
  requests : list (str * str)
}.

Definition M (A : Type) : Type := generator -> outcome A * generator.

Definition ret {A} (a : A) : M A := fun g => (Return a, g).
Definition raise {A} (e : exn) : M A := fun g => (Raise e, g).
Definition bind {A B} (m : M A) (k : A -> M B) : M B :=
  fun g =>
    match m g with
    | (Return a, g') => k a g'
    | (Raise e, g') => (Raise e, g')
    end.

Notation "'let*' x ':=' m 'in' k" := (bind m (fun x => k))
  (at level 10, x name, m at level 100, k at level 200).
Notation "'exec' m 'in' k" := (bind m (fun _ => k))
  (at level 10, m at level 100, k at level 200).

(** [try: body except Exception: return handler] *)
Definition try_except {A} (body : M A) (handler : A) : M A :=
  fun g =>
    match body g with
    | (Return a, g') => (Return a, g')
    | (Raise _, g') => (Return handler, g')
    end.

(** The four usage buckets of [__init__]. *)
Definition outline_generator : str := lit "outline_generator".
Definition affirmative_writer_role : str := lit "affirmative_writer".
Definition negative_critic_role : str := lit "negative_critic".
Definition judge_editor_role : str := lit "judge_editor".

Definition roles : list str :=
  [outline_generator; affirmative_writer_role; negative_critic_role;
   judge_editor_role].

Definition zero_stats : agent_stats := mk_agent_stats 0 0 0.

(** [StoryDebateGenerator.__init__] *)
Definition init : generator :=
  mk_generator []
    (mk_usage_totals 0 0 0 0
       (<[outline_generator := zero_stats]>
        (<[affirmative_writer_role := zero_stats]>
         (<[negative_critic_role := zero_stats]>
          (<[judge_editor_role := zero_stats]> ∅)))))
    [].

(** ** Subscripts *)

(** [v[key]] for a string key. *)
Definition subscript (v : pyval) (key : str) : M pyval :=
  match v with
  | PDict d =>
      match d !! key with
      | Some x => ret x
      | None => raise (KeyError key)
      end
  | _ => raise TypeError
  end.

(** [v.get(key, default)] *)
Definition get_default (v : pyval) (key : str) (dflt : pyval) : M pyval :=
  match v with
  | PDict d => ret (default dflt (d !! key))
  | _ => raise AttributeError
  end.

(** ** Prompt templates

    The f-strings of the four roles, one list entry per source line. *)

Definition outline_prompt (story_prompt_content : str) : str :=
  join nl [
    lit "You are a skilled Japanese storywriter. Based on the story " ++
      lit "prompt below, create a detailed 6-point outline of the " ++
      lit "story events in JSON format.";
    [];
    lit "Story Prompt:";
    story_prompt_content;
    [];
    lit "Please provide your response in the following JSON format:";
    lit "{";
    lit "    " ++ q "title" ++ lit ": " ++ q "Story Title in Japanese" ++
      lit ",";
    lit "    " ++ q "outline" ++ lit ": [";
    lit "        {";
    lit "            " ++ q "section" ++ lit ": 1,";
    lit "            " ++ q "title" ++ lit ": " ++
      q "Section title in Japanese" ++ lit ",";
    lit "            " ++ q "summary" ++ lit ": " ++
      q "Brief summary of what happens in this section";
    lit "        },";
    lit "        {";
    lit "            " ++ q "section" ++ lit ": 2,";
    lit "            " ++ q "title" ++ lit ": " ++
      q "Section title in Japanese" ++ lit ", ";
    lit "            " ++ q "summary" ++ lit ": " ++
      q "Brief summary of what happens in this section";
    lit "        },";
    lit "        {";
    lit "            " ++ q "section" ++ lit ": 3,";
    lit "            " ++ q "title" ++ lit ": " ++
      q "Section title in Japanese" ++ lit ",";
    lit "            " ++ q "summary" ++ lit ": " ++
      q "Brief summary of what happens in this section";
    lit "        },";
    lit "        {";
    lit "            " ++ q "section" ++ lit ": 4,";
    lit "            " ++ q "title" ++ lit ": " ++
      q "Section title in Japanese" ++ lit ",";
    lit "            " ++ q "summary" ++ lit ": " ++
      q "Brief summary of what happens in this section";
    lit "        },";
    lit "        {";
    lit "            " ++ q "section" ++ lit ": 5,";
    lit "            " ++ q "title" ++ lit ": " ++
      q "Section title in Japanese" ++ lit ",";
    lit "            " ++ q "summary" ++ lit ": " ++
      q "Brief summary of what happens in this section";
    lit "        },";
    lit "        {";
    lit "            " ++ q "section" ++ lit ": 6,";
    lit "            " ++ q "title" ++ lit ": " ++
      q "Section title in Japanese" ++ lit ",";
    lit "            " ++ q "summary" ++ lit ": " ++
      q "Brief summary of what happens in this section";
    lit "        }";
    lit "    ]";
    lit "}";
    [];
    lit "Respond ONLY with valid JSON. Do not include any other text."
  ].

Definition affirmative_prompt (story_prompt_content title summary context section : str) : str :=
  join nl [
    lit "You are a skilled Japanese storywriter acting as the " ++
      lit "AFFIRMATIVE WRITER. Your role is to write the initial draft " ++
      lit "of a story section.";
    [];
    lit "Original Story Prompt:";
    story_prompt_content;
    [];
    lit "Section to write:";
    lit "Title: " ++ title;
    lit "Summary: " ++ summary;
    context;
    [];
    lit "Write Section " ++ section ++
      lit " as a complete chapter in Japanese. Focus on:";
    lit "- Engaging narrative flow";
    lit "- Rich character development";
    lit "- Beautiful prose and literary style";
    lit "- Consistency with previous sections";
    lit "- Advancing the story according to the outline";
    [];
    lit "Write in an immersive, literary Japanese style that draws " ++
      lit "readers in."
  ].

Definition negative_prompt (story_prompt_content title summary context affirmative_draft section : str) : str :=
  join nl [
    lit "You are a skilled Japanese storywriter acting as the " ++
      lit "NEGATIVE CRITIC. You have read the affirmative writer's " ++
      lit "draft and believe it can be significantly improved.";
    [];
    lit "Original Story Prompt:";
    story_prompt_content;
    [];
    lit "Section Requirements:";
    lit "Title: " ++ title;
    lit "Summary: " ++ summary;
    context;
    [];
    lit "AFFIRMATIVE WRITER'S DRAFT:";
    affirmative_draft;
    [];
    lit "As the negative critic, you believe this draft has issues " ++
      lit "that need addressing. Provide your critique and write an " ++
      lit "improved alternative version that addresses these problems. " ++
      lit "Focus on:";
    lit "- Better narrative pacing and tension";
    lit "- Deeper character emotions and motivations";
    lit "- More vivid and evocative descriptions";
    lit "- Stronger dialogue and character interactions";
    lit "- Better integration with the overall story arc";
    [];
    lit "Write your improved version of Section " ++ section ++
      lit " in Japanese."
  ].

Definition judge_prompt (section title summary affirmative_draft negative_draft : str) : str :=
  join nl [
    lit "You are acting as both a LITERARY EDITOR and JUDGE. Two " ++
      lit "writers have provided different versions of Section " ++ section ++
      lit " titled " ++ dq ++ title ++ dq ++
      lit ". Your role is to evaluate both versions and select the " ++
      lit "superior one, or create a refined version based on the best " ++
      lit "elements of both.";
    [];
    lit "Section Requirements:";
    lit "Title: " ++ title;
    lit "Summary: " ++ summary;
    [];
    lit "AFFIRMATIVE VERSION:";
    affirmative_draft;
    [];
    lit "NEGATIVE VERSION:";
    negative_draft;
    [];
    lit "Evaluate both versions based on:";
    lit "1. Narrative flow and pacing";
    lit "2. Character development and emotional depth";
    lit "3. Prose quality and literary style";
    lit "4. Consistency with story requirements";
    lit "5. Reader engagement and immersion";
    [];
    lit "Select the superior version OR create a refined version " ++
      lit "that combines the best elements. Return your decision in " ++
      lit "this JSON format:";
    lit "{";
    lit "    " ++ q "preferred_version" ++ lit ": " ++ q "affirmative" ++
      lit " or " ++ q "negative" ++ lit " or " ++ q "refined" ++ lit ",";
    lit "    " ++ q "reasoning" ++ lit ": " ++ dq ++
      lit "Detailed explanation of your choice and what makes it " ++
      lit "superior" ++ dq ++ lit ",";
    lit "    " ++ q "final_section" ++ lit ": " ++
      q "The complete final version of the section in Japanese";
    lit "}";
    [];
    lit "Respond ONLY with valid JSON."
  ].

(** ** The service *)

(** [response.usage] *)
Record usage := mk_usage {
  u_prompt_tokens : Z;
  u_completion_tokens : Z;
  u_total_tokens : Z
}.

(** What [self.client.chat.completions.create] does on one request:
    it raises, or answers without choices, or with a first choice that
    has no message, or with a message whose content may be [None] and a
    usage block that may be missing. *)
Inductive api_result :=
| ApiRaise
| ApiNoChoices
| ApiNoMessage
| ApiResponse (u : option usage) (content : option str).

(** [enumerate(l, start)] *)
Fixpoint enumerate {A} (start : nat) (l : list A) : list (nat * A) :=
  match l with
  | [] => []
  | x :: l' => (start, x) :: enumerate (S start) l'
  end.

(** The token-tracking block of [_call_model] (the lines under
    [# Track token usage]). *)
Definition track_usage (agent_type : str) (u : usage) (t : usage_totals)
  : usage_totals :=
  mk_usage_totals
    (total_prompt_tokens t + u_prompt_tokens u)
    (total_completion_tokens t + u_completion_tokens u)
    (total_tokens t + u_total_tokens u)
    (api_calls t + 1)
    (match by_agent t !! agent_type with
     | Some s =>
         <[agent_type :=
             mk_agent_stats (prompt_tokens s + u_prompt_tokens u)
                            (completion_tokens s + u_completion_tokens u)
                            (calls s + 1)]> (by_agent t)
     | None => by_agent t
     end).

(** [_clean_json_response] *)
Definition _clean_json_response (response_text : str) : str :=
  let response_text :=
    if startswith response_text (lit "```json") then skipn 7 response_text
    else if startswith response_text (lit "```") then skipn 3 response_text
    else response_text in
  let response_text :=
    if endswith response_text (lit "```")
    then firstn (length response_text - 3) response_text
    else response_text in
  strip response_text.

Section Generator.

(** The world: the answer of the service to the [n]-th request of the
    run (counted from 0) with a given prompt and agent type;
    [json.loads], with [None] for a text it rejects; [str()] of a value
    that is not a [str]; whether a file can be written; and the text of
    [story_prompt.txt], [None] when it cannot be read. *)
Variable api : nat -> str -> str -> api_result.
Variable json_loads : str -> option pyval.
Variable py_str : pyval -> str.
Variable fs_write_ok : str -> bool.
Variable story_prompt_file : option str.

(** A value inside an f-string: [format(v)]. *)
Definition fmt (v : pyval) : str :=
  match v with
  | PStr s => s
  | _ => py_str v
  end.

(** [with open(name, "w") as f: ...] *)
Definition write_file (name : str) : M unit :=
  if fs_write_ok name then ret tt else raise OSError.

(** [read_story_prompt] *)
Definition read_story_prompt : str :=
  match story_prompt_file with
  | Some text => strip text
  | None => []
  end.

(** [_call_model]. Every exception is caught and gives [None]; the
    usage block is read only once a message is there. *)
Definition _call_model (prompt agent_type : str) : M (option str) :=
  fun g =>
    let sent :=
      mk_generator (debate_log g) (token_usage g)
                   (requests g ++ [(agent_type, prompt)]) in
    match api (length (requests g)) prompt agent_type with
    | ApiRaise | ApiNoChoices | ApiNoMessage => (Return None, sent)
    | ApiResponse u content =>
        let tracked :=
          match u with
          | Some u =>
              mk_generator (debate_log sent)
                           (track_usage agent_type u (token_usage sent))
                           (requests sent)
          | None => sent
          end in
        (Return match content with
                | Some (c :: content') => Some (strip (c :: content'))
                | _ => None
                end, tracked)
    end.

(** [generate_story_outline] *)
Definition generate_story_outline (story_prompt_content : str) : M pyval :=
  try_except
    (let* response :=
       _call_model (outline_prompt story_prompt_content) outline_generator in
     match response with
     | None | Some [] => ret PNone
     | Some response =>
         let outline_text := _clean_json_response response in
         match json_loads outline_text with
         | None => raise JSONDecodeError
         | Some outline_data =>
             exec write_file (lit "story_outline.json") in
             ret outline_data
         end
     end)
    PNone.

(** The context block that [affirmative_writer] and [negative_critic]
    build from [previous_sections]. *)
Definition build_context (previous_sections : list pyval) : str :=
  match previous_sections with
  | [] => []
  | _ =>
      fold_left
        (fun context '(i, prev_section) =>
           context ++ nl ++ lit "--- Section " ++ str_of_nat i ++ lit " ---"
                   ++ nl ++ fmt prev_section ++ nl)
        (enumerate 1 previous_sections)
        (nl ++ nl ++ lit "Previous sections of the story:" ++ nl)
  end.

(** [affirmative_writer] *)
Definition affirmative_writer (section_info : pyval)
    (previous_sections : list pyval) (story_prompt_content : str)
  : M (option str) :=
  let context := build_context previous_sections in
  let* title := subscript section_info (lit "title") in
  let* summary := subscript section_info (lit "summary") in
  let* section := subscript section_info (lit "section") in
  _call_model
    (affirmative_prompt story_prompt_content (fmt title) (fmt summary)
                        context (fmt section))
    affirmative_writer_role.

(** [negative_critic] *)
Definition negative_critic (section_info : pyval) (affirmative_draft : str)
    (previous_sections : list pyval) (story_prompt_content : str)
  : M (option str) :=
  let context := build_context previous_sections in
  let* title := subscript section_info (lit "title") in
  let* summary := subscript section_info (lit "summary") in
  let* section := subscript section_info (lit "section") in
  _call_model
    (negative_prompt story_prompt_content (fmt title) (fmt summary)
                     context affirmative_draft (fmt section))
    negative_critic_role.

(** [self.debate_log.append(debate_record)] *)
Definition append_debate_log (r : debate_record) : M unit :=
  fun g =>
    (Return tt,
     mk_generator (debate_log g ++ [r]) (token_usage g) (requests g)).

(** [judge_editor]. The prompt is built before the [try]; the record is
    appended only after [json.loads] has returned. *)
Definition judge_editor (section_info : pyval)
    (affirmative_draft negative_draft : str)
    (previous_sections : list pyval) : M pyval :=
  let* section := subscript section_info (lit "section") in
  let* title := subscript section_info (lit "title") in
  let* summary := subscript section_info (lit "summary") in
  try_except
    (let* response :=
       _call_model
         (judge_prompt (fmt section) (fmt title) (fmt summary)
                       affirmative_draft negative_draft)
         judge_editor_role in
     match response with
     | None | Some [] => ret PNone
     | Some response =>
         let judge_text := _clean_json_response response in
         match json_loads judge_text with
         | None => raise JSONDecodeError
         | Some judge_decision =>
             let* rec_section := subscript section_info (lit "section") in
             let* rec_title := subscript section_info (lit "title") in
             exec append_debate_log
                    (mk_debate_record rec_section rec_title affirmative_draft
                                      negative_draft judge_decision) in
             ret judge_decision
         end
     end)
    PNone.

(** [generate_section_with_debate] *)
Definition generate_section_with_debate (section_info : pyval)
    (previous_sections : list pyval) (story_prompt_content : str)
  : M pyval :=
  exec subscript section_info (lit "section") in
  exec subscript section_info (lit "title") in
  let* affirmative_draft :=
    affirmative_writer section_info previous_sections story_prompt_content in
  match affirmative_draft with
  | None | Some [] => ret PNone
  | Some affirmative_draft =>
      let* negative_draft :=
        negative_critic section_info affirmative_draft previous_sections
                        story_prompt_content in
      match negative_draft with
      | None | Some [] => ret (PStr affirmative_draft)
      | Some negative_draft =>
          let* judge_decision :=
            judge_editor section_info affirmative_draft negative_draft
                         previous_sections in
          if negb (truthy judge_decision) then ret (PStr affirmative_draft)
          else
            exec subscript judge_decision (lit "preferred_version") in
            exec subscript judge_decision (lit "reasoning") in
            subscript judge_decision (lit "final_section")
      end
  end.

(** ** The pipeline *)

(** [for x in v]: the items the loop visits. The keys of a [dict] come
    in an order that is not modelled here. *)
Definition iterate (v : pyval) : M (list pyval) :=
  match v with
  | PList l => ret l
  | PDict d => ret (map (fun kv => PStr kv.1) (map_to_list d))
  | PStr s => ret (map (fun c => PStr [c]) s)
  | _ => raise TypeError
  end.

(** The loop that prints the outline, one line per section. *)
Fixpoint print_outline (sections : list pyval) : M unit :=
  match sections with
  | [] => ret tt
  | section :: rest =>
      exec subscript section (lit "section") in
      exec subscript section (lit "title") in
      exec subscript section (lit "summary") in
      print_outline rest
  end.

(** One entry of [complete_story]. *)
Definition render_section (title final_section : pyval) : str :=
  lit "## " ++ fmt title ++ nl ++ nl ++ fmt final_section.

(** The section loop of [generate_complete_debate_story], from given
    values of [complete_story] and [previous_sections]; it returns both
    lists as they are when the loop is left. *)
Fixpoint story_loop (sections : list pyval) (complete_story : list str)
    (previous_sections : list pyval) (story_prompt_content : str)
  : M (list str * list pyval) :=
  match sections with
  | [] => ret (complete_story, previous_sections)
  | section_info :: rest =>
      let* final_section :=
        generate_section_with_debate section_info previous_sections
                                     story_prompt_content in
      if truthy final_section then
        let* title := subscript section_info (lit "title") in
        exec subscript section_info (lit "section") in
        story_loop rest
                   (complete_story ++ [render_section title final_section])
                   (previous_sections ++ [final_section])
                   story_prompt_content
      else
        exec subscript section_info (lit "section") in
        ret (complete_story, previous_sections)
  end.

(** [full_story] *)
Definition assemble (story_title : pyval) (complete_story : list str) : str :=
  lit "# " ++ fmt story_title ++ nl ++ nl ++ join (nl ++ nl) complete_story.

(** [generate_complete_debate_story]; [None] is the bare [return] and
    [return None]. *)
Definition generate_complete_debate_story : M (option str) :=
  let story_prompt_content := read_story_prompt in
  match story_prompt_content with
  | [] => ret None
  | _ =>
      let* outline_data := generate_story_outline story_prompt_content in
      if negb (truthy outline_data) then ret None
      else
        exec get_default outline_data (lit "title")
                         (PStr (lit "Untitled Story")) in
        let* outline := subscript outline_data (lit "outline") in
        let* printed := iterate outline in
        exec print_outline printed in
        let* outline := subscript outline_data (lit "outline") in
        let* sections := iterate outline in
        let* done := story_loop sections [] [] story_prompt_content in
        let complete_story := done.1 in
        match complete_story with
        | [] => ret None
        | _ =>
            let* story_title :=
              get_default outline_data (lit "title")
                          (PStr (lit "Generated Debate Story")) in
            let full_story := assemble story_title complete_story in
            exec write_file (lit "generated_debate_story.txt") in
            exec write_file (lit "debate_log.json") in
            exec write_file (lit "token_usage_log.json") in
            ret (Some full_story)
        end
  end.

End Generator.

(** ** Auxiliary notions for the statements *)

(** The three keys a section of the outline is read at. *)
Definition section_keys (section_info title summary section : pyval) : Prop :=
  exists m, section_info = PDict m
    /\ m !! lit "title" = Some title
    /\ m !! lit "summary" = Some summary
    /\ m !! lit "section" = Some section.

(** What [judge_editor] does after its request, by the answer. *)
Definition judged (json_loads : str -> option pyval)
    (s_section s_title : pyval) (d n : str)
    (r : option str) (g : generator) : outcome pyval * generator :=
  match r with
  | None | Some [] => (Return PNone, g)
  | Some text =>
      match json_loads (_clean_json_response text) with
      | None => (Return PNone, g)
      | Some judge_decision =>
          (Return judge_decision,
           mk_generator
             (debate_log g
              ++ [mk_debate_record s_section s_title d n judge_decision])
             (token_usage g) (requests g))
      end
  end.

(** [total_agent_tokens] of [print_token_usage_summary]: the total of
    one role, which [by_agent] does not store. *)
Definition agent_total (s : agent_stats) : Z :=
  prompt_tokens s + completion_tokens s.

(** The sum of a count over every role of [by_agent]. *)
Definition sum_by_agent (f : agent_stats -> Z) (m : gmap str agent_stats) : Z :=
  map_fold (fun _ s acc => f s + acc) 0 m.

(** A sequence of requests, each given as [(agent_type, prompt)], made
    one after the other through [_call_model]. *)
Fixpoint record_calls (api : nat -> str -> str -> api_result)
    (calls : list (str * str)) (g : generator) : generator :=
  match calls with
  | [] => g
  | (agent_type, prompt) :: rest =>
      record_calls api rest (_call_model api prompt agent_type g).2
  end.

(** The sums that hold whatever the service reports. *)
Definition usage_sums (t : usage_totals) : Prop :=
  total_prompt_tokens t = sum_by_agent prompt_tokens (by_agent t)
  /\ total_completion_tokens t = sum_by_agent completion_tokens (by_agent t)
  /\ api_calls t = sum_by_agent calls (by_agent t).

(** [section_info['title']] of a section that has one. *)
Definition section_title (section_info : pyval) : pyval :=
  match section_info with
  | PDict m => default PNone (m !! lit "title")
  | _ => PNone
  end.

(** The entries of [complete_story] for the first sections of an
    outline and their final texts. *)
Definition rendered (py_str : pyval -> str) (sections finals : list pyval)
  : list str :=
  zip_with (fun s v => render_section py_str (section_title s) v)
           sections finals.

(** The requests one debate sends when [previous_sections] is
    [context]: the affirmative request alone, or followed by the
    negative request on the affirmative draft, or followed by both the
    negative and the judge request. *)
Definition section_trace (py_str : pyval -> str) (p : str)
    (section_info : pyval) (context : list pyval)
    (trace : list (str * str)) : Prop :=
  exists title summary section,
    section_keys section_info title summary section
    /\ let aff :=
         (affirmative_writer_role,
          affirmative_prompt p (fmt py_str title) (fmt py_str summary)
                             (build_context py_str context)
                             (fmt py_str section)) in
       let neg d :=
         (negative_critic_role,
          negative_prompt p (fmt py_str title) (fmt py_str summary)
                          (build_context py_str context) d
                          (fmt py_str section)) in
       let judge d n :=
         (judge_editor_role,
          judge_prompt (fmt py_str section) (fmt py_str title)
                       (fmt py_str summary) d n) in
       trace = [aff]
       \/ exists d, trace = [aff; neg d]
            \/ exists n, trace = [aff; neg d; judge d n].

(** The shape the outline prompt asks for: an object whose [outline]
    is a list of six objects numbered 1 to 6 in order. *)
Definition outline_ok (v : pyval) : bool :=
  match v with
  | PDict m =>
      match m !! lit "outline" with
      | Some (PList secs) =>
          (length secs =? 6)%nat
          && forallb
               (fun '(i, s) =>
                  match s with
                  | PDict sm =>
                      match sm !! lit "section" with
                      | Some (PInt z) => z =? Z.of_nat i
                      | _ => false
                      end
                  | _ => false
                  end)
               (enumerate 1 secs)
      | _ => false
      end
  | _ => false
  end.

(** ** Example worlds

    Concrete services and answers on which the statements below are
    run. A service is given by the list of its answers in request
    order. [table_loads] stands for [json.loads] on the few texts of
    its table, each paired with the value [json.loads] gives for it;
    the only other texts the examples decode are not JSON. *)
Module Sample.

Definition script_api (script : list api_result)
  : nat -> str -> str -> api_result :=
  fun n _ _ => nth n script ApiRaise.

Fixpoint table_loads (table : list (str * pyval)) (s : str) : option pyval :=
  match table with
  | [] => None
  | (text, v) :: rest =>
      if str_eqb text s then Some v else table_loads rest s
  end.

(** [str()] on the values the examples format: integers, [None] and
    booleans. *)
Definition py_str (v : pyval) : str :=
  match v with
  | PInt z => lit (NilZero.string_of_int (Z.to_int z))
  | PBool true => lit "True"
  | PBool false => lit "False"
  | _ => lit "None"
  end.

Definition all_writes_ok : str -> bool := fun _ => true.

Definition prompt : str := lit "A boy finds a light in the forest".

Definition answer (text : string) : api_result :=
  ApiResponse (Some (mk_usage 10 20 30)) (Some (lit text)).

Definition section_obj (n : Z) (title summary : string) : pyval :=
  PDict (<[lit "section" := PInt n]>
         (<[lit "title" := PStr (lit title)]>
          (<[lit "summary" := PStr (lit summary)]> ∅))).

Definition section1 : pyval := section_obj 1 "T1" "S1".
Definition section2 : pyval := section_obj 2 "T2" "S2".

Definition outline_obj (secs : list pyval) : pyval :=
  PDict (<[lit "title" := PStr (lit "Tale")]>
         (<[lit "outline" := PList secs]> ∅)).

(** [{"section": n, "title": "..", "summary": ".."}] *)
Definition section_text (n title summary : string) : str :=
  lit "{" ++ q "section" ++ lit ": " ++ lit n ++ lit ", "
  ++ q "title" ++ lit ": " ++ q title ++ lit ", "
  ++ q "summary" ++ lit ": " ++ q summary ++ lit "}".

(** [{"title": "Tale", "outline": [..]}] with one and with two
    sections. *)
Definition outline1_text : str :=
  lit "{" ++ q "title" ++ lit ": " ++ q "Tale" ++ lit ", "
  ++ q "outline" ++ lit ": [" ++ section_text "1" "T1" "S1" ++ lit "]}".

Definition outline2_text : str :=
  lit "{" ++ q "title" ++ lit ": " ++ q "Tale" ++ lit ", "
  ++ q "outline" ++ lit ": [" ++ section_text "1" "T1" "S1" ++ lit ", "
  ++ section_text "2" "T2" "S2" ++ lit "]}".

(** [{"preferred_version": "refined", "reasoning": "R",
      "final_section": "F1"}] and the same without [final_section]. *)
Definition decision_text : str :=
  lit "{" ++ q "preferred_version" ++ lit ": " ++ q "refined" ++ lit ", "
  ++ q "reasoning" ++ lit ": " ++ q "R" ++ lit ", "
  ++ q "final_section" ++ lit ": " ++ q "F1" ++ lit "}".

Definition decision_obj : gmap str pyval :=
  <[lit "preferred_version" := PStr (lit "refined")]>
  (<[lit "reasoning" := PStr (lit "R")]>
   (<[lit "final_section" := PStr (lit "F1")]> ∅)).

Definition short_decision_text : str :=
  lit "{" ++ q "preferred_version" ++ lit ": " ++ q "refined" ++ lit ", "
  ++ q "reasoning" ++ lit ": " ++ q "R" ++ lit "}".

Definition short_decision_obj : gmap str pyval :=
  <[lit "preferred_version" := PStr (lit "refined")]>
  (<[lit "reasoning" := PStr (lit "R")]> ∅).

Definition json_loads : str -> option pyval :=
  table_loads
    [(outline1_text, outline_obj [section1]);
     (outline2_text, outline_obj [section1; section2]);
     (decision_text, PDict decision_obj);
     (short_decision_text, PDict short_decision_obj)].

(** An answer given as a text between fences, as models often do. *)
Definition fenced (text : str) : api_result :=
  ApiResponse (Some (mk_usage 10 20 30))
              (Some (lit "```json" ++ nl ++ text ++ nl ++ lit "```")).

End Sample.

(** Example runs. *)
Module Runs.
Import Sample.

(** A debate whose negative request gets an answer without choices. *)
Definition negative_fails : nat -> str -> str -> api_result :=
  script_api [answer "A1"; ApiNoChoices].

(** A debate whose judge answers with a text that is not JSON. *)
Definition judge_unparsable : nat -> str -> str -> api_result :=
  script_api [answer "A1"; answer "N1"; answer "not json"].

(** A debate whose judge leaves [final_section] out. *)
Definition judge_short : nat -> str -> str -> api_result :=
  script_api [answer "A1"; answer "N1"; fenced short_decision_text].

(** A run on a one-section outline whose negative request fails. *)
Definition one_section_fallback : nat -> str -> str -> api_result :=
  script_api [fenced outline1_text; answer "A1"; ApiNoChoices].

(** A run on a two-section outline: a full debate, then a debate
    whose negative request raises. *)
Definition two_sections : nat -> str -> str -> api_result :=
  script_api [fenced outline2_text; answer "A1"; answer "N1";
              fenced decision_text; answer "A2"; ApiRaise].

(** A run on a two-section outline whose second affirmative request
    gets an answer without choices. *)
Definition second_affirmative_fails : nat -> str -> str -> api_result :=
  script_api [fenced outline2_text; answer "A1"; answer "N1";
              fenced decision_text; ApiNoChoices].

(** One request whose usage block reports a total larger than prompt
    plus completion. *)
Definition odd_total : nat -> str -> str -> api_result :=
  script_api [ApiResponse (Some (mk_usage 1 1 3)) (Some (lit "x"))].

Definition prompt_file : option str :=
  Some (lit "A boy finds a light in the forest").

End Runs.

(** A text made of whitespace only. *)
Definition all_space (s : str) : Prop := Forall (fun c => isspace c = true) s.

(** A computation whose final generator is always related to its
    initial one, whether it returns or raises. *)
Definition respects (R : generator -> generator -> Prop) {A} (m : M A) : Prop :=
  forall g, R g (m g).2.

(** What a run may do to the generator: append to the debate log, and
    keep the roles of [by_agent] as they are. *)
Definition grows (g g' : generator) : Prop :=
  debate_log g `prefix_of` debate_log g'
  /\ dom (by_agent (token_usage g')) = dom (by_agent (token_usage g)).

(** The accounting invariant: the global counts are the sums of the
    per-role counts, the four roles have their bucket, and no more
    calls are counted than requests were sent. *)
Definition usage_ok (g : generator) : Prop :=
  usage_sums (token_usage g)
  /\ (forall a, a ∈ roles -> is_Some (by_agent (token_usage g) !! a))
  /\ api_calls (token_usage g) <= Z.of_nat (length (requests g)).

(** More example worlds, for the properties around the claims. *)
Module More.
Import Sample.

(** [{"section": 1, "title": "T1"}]: a section without [summary]. *)
Definition section_no_summary : pyval :=
  PDict (<[lit "section" := PInt 1]> (<[lit "title" := PStr (lit "T1")]> ∅)).

(** [{"title": "Tale", "outline": [{"section": 1, "title": "T1"}]}] *)
Definition bad_outline_text : str :=
  lit "{" ++ q "title" ++ lit ": " ++ q "Tale" ++ lit ", "
  ++ q "outline" ++ lit ": [{" ++ q "section" ++ lit ": 1, "
  ++ q "title" ++ lit ": " ++ q "T1" ++ lit "}]}".

(** [{"title": "Tale", "outline": []}] *)
Definition empty_outline_text : str :=
  lit "{" ++ q "title" ++ lit ": " ++ q "Tale" ++ lit ", "
  ++ q "outline" ++ lit ": []}".

Definition json_loads : str -> option pyval :=
  table_loads
    [(lit "{}", PDict ∅);
     (empty_outline_text, outline_obj []);
     (lit "[1]", PList [PInt 1]);
     (outline1_text, outline_obj [section1]);
     (decision_text, PDict decision_obj);
     (bad_outline_text, outline_obj [section_no_summary])].

(** An outline answer between fences, with blanks before the block and
    a newline after it, and no usage block. *)
Definition padded_outline : nat -> str -> str -> api_result :=
  script_api
    [ApiResponse None
       (Some (lit "  "
              ++ (lit "```json" ++ (nl ++ outline1_text ++ nl) ++ lit "```")
              ++ nl))].

(** A debate whose three requests are answered, the judge with a full
    decision, with [{}], and with [[1]]. *)
Definition full_debate : nat -> str -> str -> api_result :=
  script_api [answer "A1"; answer "N1"; fenced decision_text].

Definition empty_decision : nat -> str -> str -> api_result :=
  script_api [answer "A1"; answer "N1"; answer "{}"].

Definition list_decision : nat -> str -> str -> api_result :=
  script_api [answer "A1"; answer "N1"; answer "[1]"].

(** Outline requests answered with a text that is not JSON, with
    [[1]], and with an outline whose section has no [summary]. *)
Definition outline_not_json : nat -> str -> str -> api_result :=
  script_api [answer "not json"].

Definition outline_is_list : nat -> str -> str -> api_result :=
  script_api [answer "[1]"].

Definition outline_bad_section : nat -> str -> str -> api_result :=
  script_api [fenced bad_outline_text].

Definition outline_empty : nat -> str -> str -> api_result :=
  script_api [fenced empty_outline_text].

(** A prompt file holding two blanks and a newline. *)
Definition blank_file : option str := Some (lit "  " ++ nl).

End More.

Arguments fmt py_str v : simpl never.

(** * Properties *)

(** ** Text *)

Lemma startswith_app (p s : str) : startswith (p ++ s) p = true.
Proof.
  unfold startswith, str_eqb. rewrite take_app_length. by apply bool_decide_eq_true.
Qed.

Lemma endswith_app (s p : str) : endswith (s ++ p) p = true.
Proof.
  unfold endswith, str_eqb. rewrite length_app.
  replace (length s + length p - length p)%nat with (length s) by lia.
  rewrite drop_app_length. by apply bool_decide_eq_true.
Qed.

Lemma drop_suffix_app (s p : str) :
  firstn (length (s ++ p) - length p) (s ++ p) = s.
Proof.
  rewrite length_app.
  replace (length s + length p - length p)%nat with (length s) by lia.
  apply take_app_length.
Qed.

Lemma startswith_true (s p : str) :
  startswith s p = true -> s = p ++ skipn (length p) s.
Proof.
  unfold startswith, str_eqb. intros H%bool_decide_eq_true.
  rewrite <- H at 1. symmetry. apply take_drop.
Qed.

Lemma endswith_true (s p : str) :
  endswith s p = true -> s = firstn (length s - length p) s ++ p.
Proof.
  unfold endswith, str_eqb. intros H%bool_decide_eq_true.
  rewrite <- (take_drop (length s - length p) s) at 1. by rewrite H.
Qed.

(** A bare fence followed by text that does not begin with [json] is
    not taken for a [```json] fence. *)
Lemma bare_fence_not_json (body tail : str) :
  startswith body (lit "json") = false ->
  startswith (lit "```" ++ body ++ lit "```" ++ tail) (lit "```json") = false.
Proof.
  unfold startswith, str_eqb. intros H.
  apply bool_decide_eq_false. apply bool_decide_eq_false in H.
  intros E. apply H. clear H. vm_compute in E |- *.
  destruct body as [|a [|b [|c [|d body]]]]; simpl in *; congruence.
Qed.

Lemma startswith_bare_fence (body : str) :
  startswith (lit "```" ++ body) (lit "```json")
  = startswith body (lit "json").
Proof.
  unfold startswith, str_eqb. apply bool_decide_ext.
  change (firstn (length (lit "```json")) (lit "```" ++ body))
    with (lit "```" ++ firstn (length (lit "json")) body).
  change (lit "```json") with (lit "```" ++ lit "json").
  split; [apply app_inv_head | congruence].
Qed.

Lemma startswith_json_app (body tail : str) :
  startswith body (lit "json") = false ->
  startswith (body ++ lit "```" ++ tail) (lit "json") = false.
Proof.
  unfold startswith, str_eqb. intros H.
  apply bool_decide_eq_false. apply bool_decide_eq_false in H.
  intros E. apply H. clear H. vm_compute in E |- *.
  destruct body as [|a [|b [|c [|d body]]]]; simpl in *; congruence.
Qed.

Lemma startswith_json_fence (body : str) :
  startswith body (lit "json") = false ->
  startswith (body ++ lit "```") (lit "json") = false.
Proof.
  intros H. rewrite <- (app_nil_r (lit "```")).
  by apply startswith_json_app.
Qed.

Lemma no_fence_no_json_fence (r : str) :
  startswith r (lit "```") = false -> startswith r (lit "```json") = false.
Proof.
  unfold startswith, str_eqb. intros H.
  apply bool_decide_eq_false. apply bool_decide_eq_false in H.
  intros E. apply H. clear H. vm_compute in E |- *.
  destruct r as [|a [|b [|c r]]]; simpl in *; congruence.
Qed.

(** ** The monad *)

Lemma bind_return {A B} (m : M A) (k : A -> M B) g a g' :
  m g = (Return a, g') -> bind m k g = k a g'.
Proof. unfold bind. by intros ->. Qed.

Lemma bind_raise {A B} (m : M A) (k : A -> M B) g e g' :
  m g = (Raise e, g') -> bind m k g = (Raise e, g').
Proof. unfold bind. by intros ->. Qed.

Lemma try_except_returns {A} (body : M A) (handler : A) g :
  exists a g', try_except body handler g = (Return a, g').
Proof.
  unfold try_except. destruct (body g) as [[a|e] g']; eauto.
Qed.

Lemma subscript_state (v : pyval) (key : str) g o g' :
  subscript v key g = (o, g') -> g' = g.
Proof.
  unfold subscript, ret, raise.
  destruct v; try (intros [= _ <-]; reflexivity).
  destruct (d !! key); intros [= _ <-]; reflexivity.
Qed.

Lemma subscript_return (v : pyval) (key : str) g x g' :
  subscript v key g = (Return x, g') ->
  exists d, v = PDict d /\ d !! key = Some x /\ g' = g.
Proof.
  unfold subscript, ret, raise. destruct v; try discriminate.
  destruct (d !! key) eqn:E; intros [= <- <-]. eauto.
Qed.

Lemma subscript_lookup (d : gmap str pyval) (key : str) x g :
  d !! key = Some x -> subscript (PDict d) key g = (Return x, g).
Proof. unfold subscript, ret. by intros ->. Qed.

Section Properties.

Variable api : nat -> str -> str -> api_result.
Variable json_loads : str -> option pyval.
Variable py_str : pyval -> str.
Variable fs_write_ok : str -> bool.
Variable story_prompt_file : option str.

(** [_call_model] returns, sends exactly one request and leaves the
    debate log alone. *)
Lemma call_model_spec (prompt agent_type : str) g :
  exists r g',
    _call_model api prompt agent_type g = (Return r, g')
    /\ debate_log g' = debate_log g
    /\ requests g' = requests g ++ [(agent_type, prompt)].
Proof.
  unfold _call_model.
  destruct (api _ _ _) as [| | |[u|] content]; simpl; eauto.
Qed.

Lemma call_model_inv (prompt agent_type : str) g o g' :
  _call_model api prompt agent_type g = (o, g') ->
  (exists r, o = Return r)
  /\ debate_log g' = debate_log g
  /\ requests g' = requests g ++ [(agent_type, prompt)].
Proof.
  destruct (call_model_spec prompt agent_type g) as (r & g1 & -> & ? & ?).
  intros [= <- <-]. eauto.
Qed.

(** C8. [_clean_json_response] removes a leading [```json] or [```]
    fence when there is one, then a trailing [```] fence when there is
    one, and strips the rest; [generate_story_outline] never raises,
    and returns [None] when [json.loads] rejects the cleaned text. *)
Theorem outline_fences_stripped_and_parse_failure_returned :
  (forall body,
     _clean_json_response (lit "```json" ++ body ++ lit "```") = strip body)
  /\ (forall body,
        startswith body (lit "json") = false ->
        _clean_json_response (lit "```" ++ body ++ lit "```") = strip body)
  /\ (forall body,
        endswith body (lit "```") = false ->
        _clean_json_response (lit "```json" ++ body) = strip body)
  /\ (forall body,
        startswith body (lit "json") = false ->
        endswith body (lit "```") = false ->
        _clean_json_response (lit "```" ++ body) = strip body)
  /\ (forall body,
        startswith (body ++ lit "```") (lit "```") = false ->
        _clean_json_response (body ++ lit "```") = strip body)
  /\ (forall r,
        startswith r (lit "```") = false ->
        endswith r (lit "```") = false ->
        _clean_json_response r = strip r)
  /\ (forall p g, exists v g',
        generate_story_outline api json_loads fs_write_ok p g
        = (Return v, g'))
  /\ (forall p g r g1,
        _call_model api (outline_prompt p) outline_generator g
        = (Return (Some r), g1) ->
        json_loads (_clean_json_response r) = None ->
        generate_story_outline api json_loads fs_write_ok p g
        = (Return PNone, g1)).
Proof.
  repeat split.
  - intros body. unfold _clean_json_response.
    rewrite startswith_app.
    change 7%nat with (length (lit "```json")). rewrite drop_app_length.
    rewrite endswith_app.
    change 3%nat with (length (lit "```")). by rewrite drop_suffix_app.
  - intros body Hb. unfold _clean_json_response.
    rewrite startswith_bare_fence.
    rewrite (startswith_json_fence body Hb).
    rewrite startswith_app.
    change 3%nat with (length (lit "```")). rewrite !drop_app_length.
    by rewrite endswith_app, drop_suffix_app.
  - intros body Hb. unfold _clean_json_response.
    rewrite startswith_app.
    change 7%nat with (length (lit "```json")). rewrite drop_app_length.
    by rewrite Hb.
  - intros body Hs He. unfold _clean_json_response.
    rewrite startswith_bare_fence, Hs, startswith_app.
    change 3%nat with (length (lit "```")). rewrite !drop_app_length.
    by rewrite He.
  - intros body Hs. unfold _clean_json_response.
    rewrite (no_fence_no_json_fence _ Hs), Hs, endswith_app.
    change 3%nat with (length (lit "```")). by rewrite drop_suffix_app.
  - intros r Hs He. unfold _clean_json_response.
    by rewrite (no_fence_no_json_fence _ Hs), Hs, He.
  - intros p g. apply try_except_returns.
  - intros p g r g1 Hcall Hloads. unfold generate_story_outline, try_except.
    rewrite (bind_return _ _ _ _ _ Hcall).
    destruct r as [|c r]; [reflexivity|].
    by rewrite Hloads.
Qed.

(** ** One section *)

Lemma affirmative_writer_keys s title summary section ps p g :
  section_keys s title summary section ->
  affirmative_writer api py_str s ps p g
  = _call_model api
      (affirmative_prompt p (fmt py_str title) (fmt py_str summary)
                          (build_context py_str ps) (fmt py_str section))
      affirmative_writer_role g.
Proof.
  intros (m & -> & Ht & Hs & Hn). unfold affirmative_writer.
  rewrite (bind_return _ _ _ _ _ (subscript_lookup _ _ _ g Ht)).
  rewrite (bind_return _ _ _ _ _ (subscript_lookup _ _ _ g Hs)).
  by rewrite (bind_return _ _ _ _ _ (subscript_lookup _ _ _ g Hn)).
Qed.

Lemma affirmative_writer_inv s ps p g r g1 :
  affirmative_writer api py_str s ps p g = (Return r, g1) ->
  exists title summary section, section_keys s title summary section.
Proof.
  unfold affirmative_writer, bind. intros H.
  destruct (subscript s (lit "title") g) as [[t|e] gt] eqn:Et;
    [|discriminate].
  apply subscript_return in Et as (m & -> & Ht & ->).
  destruct (subscript (PDict m) (lit "summary") g) as [[u|e] gu] eqn:Eu;
    [|discriminate].
  apply subscript_return in Eu as (m' & [= <-] & Hu & ->).
  destruct (subscript (PDict m) (lit "section") g) as [[n|e] gn] eqn:En;
    [|discriminate].
  apply subscript_return in En as (m' & [= <-] & Hn & ->).
  exists t, u, n, m. eauto.
Qed.

Lemma negative_critic_keys s title summary section d ps p g :
  section_keys s title summary section ->
  negative_critic api py_str s d ps p g
  = _call_model api
      (negative_prompt p (fmt py_str title) (fmt py_str summary)
                       (build_context py_str ps) d (fmt py_str section))
      negative_critic_role g.
Proof.
  intros (m & -> & Ht & Hs & Hn). unfold negative_critic.
  rewrite (bind_return _ _ _ _ _ (subscript_lookup _ _ _ g Ht)).
  rewrite (bind_return _ _ _ _ _ (subscript_lookup _ _ _ g Hs)).
  by rewrite (bind_return _ _ _ _ _ (subscript_lookup _ _ _ g Hn)).
Qed.

Lemma judge_editor_keys s title summary section d n ps g r g1 :
  section_keys s title summary section ->
  _call_model api
    (judge_prompt (fmt py_str section) (fmt py_str title)
                  (fmt py_str summary) d n)
    judge_editor_role g = (Return r, g1) ->
  judge_editor api json_loads py_str s d n ps g = judged json_loads section title d n r g1.
Proof.
  intros (m & -> & Ht & Hs & Hn) Hcall. unfold judge_editor.
  rewrite (bind_return _ _ _ _ _ (subscript_lookup _ _ _ g Hn)).
  rewrite (bind_return _ _ _ _ _ (subscript_lookup _ _ _ g Ht)).
  rewrite (bind_return _ _ _ _ _ (subscript_lookup _ _ _ g Hs)).
  unfold try_except. rewrite (bind_return _ _ _ _ _ Hcall).
  unfold judged. destruct r as [[|c text]|]; try reflexivity.
  destruct (json_loads _) as [jd|]; [|reflexivity].
  rewrite (bind_return _ _ _ _ _ (subscript_lookup _ _ _ g1 Hn)).
  by rewrite (bind_return _ _ _ _ _ (subscript_lookup _ _ _ g1 Ht)).
Qed.

Lemma section_prologue s title summary section
    (k : M pyval) g :
  section_keys s title summary section ->
  (exec subscript s (lit "section") in
   exec subscript s (lit "title") in k) g = k g.
Proof.
  intros (m & -> & Ht & Hs & Hn).
  rewrite (bind_return _ _ _ _ _ (subscript_lookup _ _ _ g Hn)).
  by rewrite (bind_return _ _ _ _ _ (subscript_lookup _ _ _ g Ht)).
Qed.

(** C1, as the code has it. When the affirmative draft is there and the
    negative critic gives nothing usable, the section's text is the
    affirmative draft itself, and the debate log is left as it was: no
    record is appended for the section. *)
Theorem negative_failure_keeps_affirmative_draft s ps p g d g1 r g2 :
  affirmative_writer api py_str s ps p g = (Return (Some d), g1) ->
  d <> [] ->
  negative_critic api py_str s d ps p g1 = (Return r, g2) ->
  truthy_opt r = false ->
  generate_section_with_debate api json_loads py_str s ps p g
  = (Return (PStr d), g2)
  /\ debate_log g2 = debate_log g.
Proof.
  intros Haff Hd Hneg Hr.
  destruct (affirmative_writer_inv _ _ _ _ _ _ Haff)
    as (title & summary & section & Hk).
  split.
  - unfold generate_section_with_debate.
    rewrite (section_prologue _ _ _ _ _ _ Hk).
    rewrite (bind_return _ _ _ _ _ Haff).
    destruct d as [|c d]; [done|].
    rewrite (bind_return _ _ _ _ _ Hneg).
    by destruct r as [[|c' r]|].
  - rewrite (affirmative_writer_keys _ _ _ _ _ _ _ Hk) in Haff.
    rewrite (negative_critic_keys _ _ _ _ _ _ _ _ Hk) in Hneg.
    apply call_model_inv in Haff as (_ & Ha & _).
    apply call_model_inv in Hneg as (_ & Hn & _).
    congruence.
Qed.

(** C2, as the code has it. When both drafts are there and the judge's
    request gives nothing usable, or a text that [json.loads] rejects,
    the section's text is the affirmative draft, and the debate log is
    left as it was: no record is appended for the section. *)
Theorem judge_failure_keeps_affirmative_draft
    s title summary section ps p g d g1 n g2 r g3 :
  section_keys s title summary section ->
  affirmative_writer api py_str s ps p g = (Return (Some d), g1) ->
  d <> [] ->
  negative_critic api py_str s d ps p g1 = (Return (Some n), g2) ->
  n <> [] ->
  _call_model api
    (judge_prompt (fmt py_str section) (fmt py_str title)
                  (fmt py_str summary) d n)
    judge_editor_role g2 = (Return r, g3) ->
  (truthy_opt r = false
   \/ exists text, r = Some text
        /\ json_loads (_clean_json_response text) = None) ->
  generate_section_with_debate api json_loads py_str s ps p g
  = (Return (PStr d), g3)
  /\ debate_log g3 = debate_log g.
Proof.
  intros Hk Haff Hd Hneg Hn Hcall Hr.
  split.
  - unfold generate_section_with_debate.
    rewrite (section_prologue _ _ _ _ _ _ Hk).
    rewrite (bind_return _ _ _ _ _ Haff).
    destruct d as [|c d]; [done|].
    rewrite (bind_return _ _ _ _ _ Hneg).
    destruct n as [|c' n]; [done|].
    assert (Hj : judge_editor api json_loads py_str s (c :: d) (c' :: n) ps g2
                 = (Return PNone, g3)).
    { rewrite (judge_editor_keys _ _ _ _ _ _ _ _ _ _ Hk Hcall).
      unfold judged. destruct Hr as [Hr|(text & -> & Hl)].
      - by destruct r as [[|c'' r]|].
      - rewrite Hl. by destruct text. }
    by rewrite (bind_return _ _ _ _ _ Hj).
  - rewrite (affirmative_writer_keys _ _ _ _ _ _ _ Hk) in Haff.
    rewrite (negative_critic_keys _ _ _ _ _ _ _ _ Hk) in Hneg.
    apply call_model_inv in Haff as (_ & Ha & _).
    apply call_model_inv in Hneg as (_ & Hn' & _).
    apply call_model_inv in Hcall as (_ & Hc & _).
    congruence.
Qed.

(** C10. When both drafts are there and the judge's answer decodes to a
    non-empty object without [preferred_version] or without
    [final_section], [generate_section_with_debate] raises a
    [KeyError] for a key the object lacks, after the record has been
    appended; the section loop lets the exception through. *)
Theorem judge_decision_missing_key_raises
    s title summary section ps p g d g1 n g2 text g3 jd :
  section_keys s title summary section ->
  affirmative_writer api py_str s ps p g = (Return (Some d), g1) ->
  d <> [] ->
  negative_critic api py_str s d ps p g1 = (Return (Some n), g2) ->
  n <> [] ->
  _call_model api
    (judge_prompt (fmt py_str section) (fmt py_str title)
                  (fmt py_str summary) d n)
    judge_editor_role g2 = (Return (Some text), g3) ->
  text <> [] ->
  json_loads (_clean_json_response text) = Some (PDict jd) ->
  jd <> ∅ ->
  jd !! lit "preferred_version" = None \/ jd !! lit "final_section" = None ->
  exists key g4,
    generate_section_with_debate api json_loads py_str s ps p g
    = (Raise (KeyError key), g4)
    /\ jd !! key = None
    /\ debate_log g4
       = debate_log g ++ [mk_debate_record section title d n (PDict jd)]
    /\ forall rest complete_story,
         story_loop api json_loads py_str (s :: rest) complete_story ps p g
         = (Raise (KeyError key), g4).
Proof.
  intros Hk Haff Hd Hneg Hn Hcall Ht Hl Hjd Hmiss.
  set (g4 := mk_generator
               (debate_log g3 ++ [mk_debate_record section title d n (PDict jd)])
               (token_usage g3) (requests g3)).
  assert (Hj : judge_editor api json_loads py_str s d n ps g2
               = (Return (PDict jd), g4)).
  { rewrite (judge_editor_keys _ _ _ _ _ _ _ _ _ _ Hk Hcall).
    unfold judged. rewrite Hl. by destruct text. }
  assert (Hlog : debate_log g3 = debate_log g).
  { rewrite (affirmative_writer_keys _ _ _ _ _ _ _ Hk) in Haff.
    rewrite (negative_critic_keys _ _ _ _ _ _ _ _ Hk) in Hneg.
    apply call_model_inv in Haff as (_ & Ha & _).
    apply call_model_inv in Hneg as (_ & Hn' & _).
    apply call_model_inv in Hcall as (_ & Hc & _).
    congruence. }
  assert (Hrun : exists key,
             generate_section_with_debate api json_loads py_str s ps p g
             = (Raise (KeyError key), g4) /\ jd !! key = None).
  { unfold generate_section_with_debate.
    rewrite (section_prologue _ _ _ _ _ _ Hk).
    rewrite (bind_return _ _ _ _ _ Haff).
    destruct d as [|c d]; [done|].
    rewrite (bind_return _ _ _ _ _ Hneg).
    destruct n as [|c' n]; [done|].
    rewrite (bind_return _ _ _ _ _ Hj).
    assert (Htr : truthy (PDict jd) = true).
    { simpl. by rewrite bool_decide_eq_false_2. }
    rewrite Htr. simpl negb. cbv iota.
    unfold bind, subscript, ret, raise.
    destruct (jd !! lit "preferred_version") eqn:E1; [|by eauto].
    destruct (jd !! lit "reasoning") eqn:E2; [|by eauto].
    destruct (jd !! lit "final_section") eqn:E3; [|by eauto].
    by destruct Hmiss. }
  destruct Hrun as (key & Hrun & Hkey).
  exists key, g4. repeat split; try done.
  - simpl. by rewrite Hlog.
  - intros rest cs. simpl. by rewrite (bind_raise _ _ _ _ _ Hrun).
Qed.

(** ** Token accounting *)

Lemma sum_by_agent_insert (f : agent_stats -> Z) (m : gmap str agent_stats)
    (k : str) (old new : agent_stats) :
  m !! k = Some old ->
  sum_by_agent f (<[k := new]> m) = sum_by_agent f m - f old + f new.
Proof.
  intros Hk. unfold sum_by_agent.
  rewrite <- (insert_delete_eq m k new).
  rewrite <- (insert_delete_id m k old Hk) at 2.
  rewrite !map_fold_insert_L; try (by apply lookup_delete_eq); [lia| |];
    intros; lia.
Qed.

Lemma sum_by_agent_init (f : agent_stats -> Z) :
  f zero_stats = 0 -> sum_by_agent f (by_agent (token_usage init)) = 0.
Proof.
  intros Hz. unfold sum_by_agent. simpl.
  rewrite !map_fold_insert_L; try (intros; lia); try done.
  rewrite map_fold_empty. lia.
Qed.

Lemma track_usage_roles a u t b :
  is_Some (by_agent (track_usage a u t) !! b) <-> is_Some (by_agent t !! b).
Proof.
  unfold track_usage. simpl. destruct (by_agent t !! a) eqn:Ea; [|done].
  destruct (decide (a = b)) as [<-|Hne].
  - rewrite lookup_insert_eq, Ea. split; eauto.
  - by rewrite lookup_insert_ne.
Qed.

Lemma track_usage_sums a u t :
  is_Some (by_agent t !! a) -> usage_sums t -> usage_sums (track_usage a u t).
Proof.
  intros [s Hs] (Hp & Hc & Hn). unfold usage_sums, track_usage. simpl.
  rewrite Hs, !(sum_by_agent_insert _ _ _ _ _ Hs). simpl. lia.
Qed.

Lemma track_usage_total a u t :
  is_Some (by_agent t !! a) ->
  u_total_tokens u = u_prompt_tokens u + u_completion_tokens u ->
  total_tokens t = sum_by_agent agent_total (by_agent t) ->
  total_tokens (track_usage a u t)
  = sum_by_agent agent_total (by_agent (track_usage a u t)).
Proof.
  intros [s Hs] Hu Ht. unfold track_usage. simpl.
  rewrite Hs, (sum_by_agent_insert _ _ _ _ _ Hs), Ht.
  generalize (sum_by_agent agent_total (by_agent t)). intros z.
  unfold agent_total. simpl. lia.
Qed.

(** What one request does to the usage totals. *)
Lemma call_model_usage prompt a g :
  let g' := (_call_model api prompt a g).2 in
  token_usage g' = token_usage g
  \/ exists u content,
       api (length (requests g)) prompt a = ApiResponse (Some u) content
       /\ token_usage g' = track_usage a u (token_usage g).
Proof.
  unfold _call_model.
  destruct (api _ _ _) as [| | |[u|] content]; simpl; eauto.
Qed.

Lemma record_calls_usage (calls : list (str * str)) g :
  Forall (fun c => is_Some (by_agent (token_usage g) !! c.1)) calls ->
  usage_sums (token_usage g) ->
  usage_sums (token_usage (record_calls api calls g))
  /\ ((forall n prompt a u content,
         api n prompt a = ApiResponse (Some u) content ->
         u_total_tokens u = u_prompt_tokens u + u_completion_tokens u) ->
      total_tokens (token_usage g)
      = sum_by_agent agent_total (by_agent (token_usage g)) ->
      total_tokens (token_usage (record_calls api calls g))
      = sum_by_agent agent_total
          (by_agent (token_usage (record_calls api calls g)))).
Proof.
  revert g. induction calls as [|[a prompt] calls IH]; intros g Hin Hs.
  - by split.
  - apply Forall_cons in Hin as [Ha Hin]. simpl in Ha. simpl.
    destruct (call_model_usage prompt a g) as [E|(u & content & Eapi & E)];
      simpl in E.
    + rewrite <- E in Hin, Hs.
      destruct (IH _ Hin Hs) as [IH1 IH2]. split; [done|].
      intros Hall Ht. apply IH2; [done|]. by rewrite E.
    + assert (Hin' : Forall
                (fun c => is_Some
                   (by_agent (token_usage (_call_model api prompt a g).2)
                    !! c.1)) calls).
      { eapply Forall_impl; [exact Hin|]. intros c Hc. simpl in Hc.
        rewrite E. by apply track_usage_roles. }
      assert (Hs' : usage_sums (token_usage (_call_model api prompt a g).2)).
      { rewrite E. by apply track_usage_sums. }
      destruct (IH _ Hin' Hs') as [IH1 IH2]. split; [done|].
      intros Hall Ht. apply IH2; [done|]. rewrite E.
      apply track_usage_total; eauto.
Qed.

Lemma init_roles a : a ∈ roles -> is_Some (by_agent (token_usage init) !! a).
Proof.
  unfold roles. rewrite !elem_of_cons, elem_of_nil.
  intros [->|[->|[->|[->|[]]]]]; by eexists.
Qed.

(** C6, as the code has it. After any sequence of requests made in the
    four roles, the global prompt, completion and call counts are the
    sums of the per-role counts; and when every usage block the service
    sends has a total equal to its prompt count plus its completion
    count, the global total is the sum of the per-role totals. *)
Theorem usage_totals_are_sums_over_roles (calls : list (str * str)) :
  Forall (fun c => c.1 ∈ roles) calls ->
  let t := token_usage (record_calls api calls init) in
  usage_sums t
  /\ ((forall n prompt a u content,
         api n prompt a = ApiResponse (Some u) content ->
         u_total_tokens u = u_prompt_tokens u + u_completion_tokens u) ->
      total_tokens t = sum_by_agent agent_total (by_agent t)).
Proof.
  intros Hin t.
  assert (Hin' : Forall (fun c => is_Some (by_agent (token_usage init) !! c.1))
                        calls).
  { eapply Forall_impl; [exact Hin|]. intros c. apply init_roles. }
  assert (Hs : usage_sums (token_usage init)).
  { unfold usage_sums. by rewrite !sum_by_agent_init. }
  destruct (record_calls_usage calls init Hin' Hs) as [H1 H2].
  split; [done|]. intros Hall. apply H2; [done|].
  by rewrite sum_by_agent_init.
Qed.

(** ** The section loop *)

Lemma section_keys_title s title summary section :
  section_keys s title summary section -> section_title s = title.
Proof. intros (m & -> & Ht & _). simpl. by rewrite Ht. Qed.

Lemma judged_spec section title d n r g o g' :
  judged json_loads section title d n r g = (o, g') ->
  requests g' = requests g
  /\ exists recs, debate_log g' = debate_log g ++ recs
       /\ (length recs <= 1)%nat
       /\ Forall (fun r => dr_title r = title) recs.
Proof.
  unfold judged. intros H. split.
  - destruct r as [[|c text]|]; try (by injection H as _ <-).
    destruct (json_loads _); by injection H as _ <-.
  - destruct r as [[|c text]|];
      try (exists []; injection H as _ <-; rewrite app_nil_r;
           repeat split; simpl; auto; lia).
    destruct (json_loads _) eqn:E.
    + injection H as _ <-. eexists [_]. simpl. repeat split; auto.
    + exists []. injection H as _ <-. rewrite app_nil_r.
      repeat split; simpl; auto; lia.
Qed.

(** What a debate that returns has done: which requests it sent with
    which context, and what it appended to the debate log. *)
Lemma section_debate_spec s ps p g v g1 :
  generate_section_with_debate api json_loads py_str s ps p g
  = (Return v, g1) ->
  exists trace recs,
    section_trace py_str p s ps trace
    /\ requests g1 = requests g ++ trace
    /\ debate_log g1 = debate_log g ++ recs
    /\ (length recs <= 1)%nat
    /\ Forall (fun r => dr_title r = section_title s) recs.
Proof.
  intros H.
  assert (Hk : exists title summary section,
             section_keys s title summary section).
  { unfold generate_section_with_debate in H.
    unfold bind at 1 in H.
    destruct (subscript s (lit "section") g) as [[x|e] gx] eqn:E1;
      [|discriminate].
    pose proof (subscript_state _ _ _ _ _ E1) as ->.
    unfold bind at 1 in H.
    destruct (subscript s (lit "title") g) as [[y|e] gy] eqn:E2;
      [|discriminate].
    pose proof (subscript_state _ _ _ _ _ E2) as ->.
    unfold bind at 1 in H.
    destruct (affirmative_writer _ _ _ _ _ _) as [[r|e] ga] eqn:E3;
      [|discriminate].
    by eapply affirmative_writer_inv. }
  destruct Hk as (title & summary & section & Hk).
  pose proof (section_keys_title _ _ _ _ Hk) as Htitle.
  unfold generate_section_with_debate in H.
  rewrite (section_prologue _ _ _ _ _ _ Hk) in H.
  unfold bind at 1 in H.
  rewrite (affirmative_writer_keys _ _ _ _ _ _ _ Hk) in H.
  destruct (_call_model _ _ _ g) as [oa ga] eqn:Ea.
  apply call_model_inv in Ea as ([ra ->] & Hla & Hra).
  assert (Hstop : forall w, (Return w, ga) = (Return v, g1) ->
            exists trace recs,
              section_trace py_str p s ps trace
              /\ requests g1 = requests g ++ trace
              /\ debate_log g1 = debate_log g ++ recs
              /\ (length recs <= 1)%nat
              /\ Forall (fun r => dr_title r = section_title s) recs).
  { intros w [= _ <-]. eexists [_], []. rewrite (app_nil_r (debate_log g)).
    repeat split; [|exact Hra|exact Hla|simpl; lia|auto].
    exists title, summary, section. split; [done|]. by left. }
  destruct ra as [[|c d]|]; [by eapply Hstop| |by eapply Hstop].
  clear Hstop.
  unfold bind at 1 in H.
  rewrite (negative_critic_keys _ _ _ _ _ _ _ _ Hk) in H.
  destruct (_call_model _ _ _ ga) as [on gn] eqn:En.
  apply call_model_inv in En as ([rn ->] & Hln & Hrn).
  assert (Hstop : forall w, (Return w, gn) = (Return v, g1) ->
            exists trace recs,
              section_trace py_str p s ps trace
              /\ requests g1 = requests g ++ trace
              /\ debate_log g1 = debate_log g ++ recs
              /\ (length recs <= 1)%nat
              /\ Forall (fun r => dr_title r = section_title s) recs).
  { intros w [= _ <-]. eexists [_; _], [].
    rewrite (app_nil_r (debate_log g)).
    repeat split;
      [|rewrite Hrn, Hra, <- app_assoc; reflexivity|congruence
       |simpl; lia|auto].
    exists title, summary, section. split; [done|]. right.
    exists (c :: d). by left. }
  destruct rn as [[|c' n]|]; [by eapply Hstop| |by eapply Hstop].
  clear Hstop.
  unfold bind at 1 in H.
  destruct (_call_model api
              (judge_prompt (fmt py_str section) (fmt py_str title)
                            (fmt py_str summary) (c :: d) (c' :: n))
              judge_editor_role gn) as [oj gj] eqn:Ej.
  pose proof Ej as Ej'.
  apply call_model_inv in Ej' as ([rj ->] & Hlj & Hrj).
  rewrite (judge_editor_keys _ _ _ _ _ _ ps _ _ _ Hk Ej) in H.
  destruct (judged _ _ _ _ _ _ _) as [[jd|e] gd] eqn:Ed; [|discriminate].
  apply judged_spec in Ed as (Hrd & recs & Hld & Hlen & Hrecs).
  assert (Hg : g1 = gd).
  { destruct (negb (truthy jd)); [by injection H|].
    unfold bind in H.
    destruct (subscript jd (lit "preferred_version") gd)
      as [[x|e] gx] eqn:E1; [|discriminate].
    pose proof (subscript_state _ _ _ _ _ E1) as ->.
    destruct (subscript jd (lit "reasoning") gd)
      as [[y|e] gy] eqn:E2; [|discriminate].
    pose proof (subscript_state _ _ _ _ _ E2) as ->.
    by eapply subscript_state. }
  subst g1. eexists [_; _; _], recs.
  repeat split;
    [|rewrite Hrd, Hrj, Hrn, Hra, <- !app_assoc; reflexivity
     |rewrite Hld; congruence|done|by rewrite Htitle].
  exists title, summary, section. split; [done|]. right.
  exists (c :: d). right. by exists (c' :: n).
Qed.

Lemma story_loop_step s rest cs0 ps0 p g v g1 :
  generate_section_with_debate api json_loads py_str s ps0 p g
  = (Return v, g1) ->
  story_loop api json_loads py_str (s :: rest) cs0 ps0 p g
  = if truthy v
    then story_loop api json_loads py_str rest
           (cs0 ++ [render_section py_str (section_title s) v])
           (ps0 ++ [v]) p g1
    else (Return (cs0, ps0), g1).
Proof.
  intros H. simpl. rewrite (bind_return _ _ _ _ _ H).
  apply section_debate_spec in H
    as (trace & recs & (title & summary & section & Hk & _) & _).
  rewrite (section_keys_title _ _ _ _ Hk).
  destruct Hk as (m & -> & Ht & Hs & Hn).
  destruct (truthy v).
  - rewrite (bind_return _ _ _ _ _ (subscript_lookup _ _ _ g1 Ht)).
    by rewrite (bind_return _ _ _ _ _ (subscript_lookup _ _ _ g1 Hn)).
  - by rewrite (bind_return _ _ _ _ _ (subscript_lookup _ _ _ g1 Hn)).
Qed.

Lemma story_loop_raise s rest cs0 ps0 p g e g1 :
  generate_section_with_debate api json_loads py_str s ps0 p g
  = (Raise e, g1) ->
  story_loop api json_loads py_str (s :: rest) cs0 ps0 p g = (Raise e, g1).
Proof. intros H. simpl. by rewrite (bind_raise _ _ _ _ _ H). Qed.

(** A run of the section loop that returns, section by section: the
    texts it finalized, the requests of each attempted section, and
    the records it appended. *)
Lemma story_loop_run secs : forall cs0 ps0 p g cs ps g',
  story_loop api json_loads py_str secs cs0 ps0 p g = (Return (cs, ps), g') ->
  exists finals traces recs,
    ps = ps0 ++ finals
    /\ cs = cs0 ++ rendered py_str secs finals
    /\ (length finals <= length secs)%nat
    /\ Forall (fun v => truthy v = true) finals
    /\ requests g' = requests g ++ concat traces
    /\ length traces = Nat.min (S (length finals)) (length secs)
    /\ (forall k s tr,
          secs !! k = Some s -> traces !! k = Some tr ->
          section_trace py_str p s (ps0 ++ take k finals) tr)
    /\ debate_log g' = debate_log g ++ recs
    /\ (dr_title <$> recs)
         `sublist_of` (section_title <$> take (length traces) secs)
    /\ ((length finals < length secs)%nat ->
        exists s gk v,
          secs !! length finals = Some s
          /\ generate_section_with_debate api json_loads py_str s ps p gk
             = (Return v, g')
          /\ truthy v = false)
    /\ (forall k v,
          finals !! k = Some v ->
          exists s gk gk',
            secs !! k = Some s
            /\ generate_section_with_debate api json_loads py_str s
                 (ps0 ++ take k finals) p gk
               = (Return v, gk')).
Proof.
  induction secs as [|s rest IH]; intros cs0 ps0 p g cs ps g' H.
  - injection H as <- <- <-. exists [], [], []. simpl.
    rewrite !app_nil_r. split_and!; auto; try lia.
    + intros k s tr Hs. by rewrite lookup_nil in Hs.
    + intros k v Hv. by rewrite lookup_nil in Hv.
  - destruct (generate_section_with_debate api json_loads py_str s ps0 p g)
      as [[v|e] g1] eqn:Es.
    2: { rewrite (story_loop_raise _ _ _ _ _ _ _ _ Es) in H. discriminate. }
    rewrite (story_loop_step _ _ _ _ _ _ _ _ Es) in H.
    pose proof (section_debate_spec _ _ _ _ _ _ Es)
      as (tr1 & recs1 & Htr1 & Hreq1 & Hlog1 & Hlen1 & Htitle1).
    assert (Hsub1 : (dr_title <$> recs1) `sublist_of` [section_title s]).
    { destruct recs1 as [|r [|r' recs1]]; simpl in *; [| |lia].
      - apply sublist_nil_l.
      - apply Forall_cons in Htitle1 as [-> _]. done. }
    destruct (truthy v) eqn:Ev.
    + apply IH in H
        as (finals & traces & recs & -> & -> & Hlen & Htruthy & Hreq
            & Htraces & Hctx & Hlog & Hsub & Hstop & Hfin).
      exists (v :: finals), (tr1 :: traces), (recs1 ++ recs).
      split_and!.
      * by rewrite <- app_assoc.
      * by rewrite <- app_assoc.
      * simpl. lia.
      * by constructor.
      * rewrite Hreq, Hreq1, <- app_assoc. reflexivity.
      * simpl length. rewrite Htraces. apply Nat.succ_min_distr.
      * intros [|k] s' tr Hs Ht; simpl in *.
        -- injection Hs as <-. injection Ht as <-. by rewrite app_nil_r.
        -- specialize (Hctx k s' tr Hs Ht).
           by rewrite <- app_assoc in Hctx.
      * rewrite Hlog, Hlog1, <- app_assoc. reflexivity.
      * rewrite fmap_app. simpl.
        by apply (sublist_app _ [section_title s]).
      * simpl. intros Hlt.
        destruct Hstop as (s' & gk & w & Hs' & Hrun & Hw); [lia|].
        by exists s', gk, w.
      * intros [|k] w Hw; simpl in *.
        -- injection Hw as <-. exists s, g, g1. by rewrite app_nil_r.
        -- destruct (Hfin k w Hw) as (s' & gk & gk' & Hs' & Hrun).
           exists s', gk, gk'. by rewrite <- app_assoc in Hrun.
    + injection H as <- <- <-.
      exists [], [tr1], recs1. simpl. rewrite !app_nil_r.
      split_and!; [done|done|lia|done|done|done| |done|done| |].
      * intros [|k] s' tr Hs Ht; simpl in *; [|by rewrite lookup_nil in Ht].
        injection Hs as <-. injection Ht as <-. by rewrite app_nil_r.
      * intros _. by exists s, g, v.
      * intros k w Hw. by rewrite lookup_nil in Hw.
Qed.




(** A loop that completes every section of a first part of the outline
    goes on with the rest. *)
Lemma story_loop_app done rest : forall cs0 ps0 p g cs ps g1,
  story_loop api json_loads py_str done cs0 ps0 p g = (Return (cs, ps), g1) ->
  length ps = (length ps0 + length done)%nat ->
  story_loop api json_loads py_str (done ++ rest) cs0 ps0 p g
  = story_loop api json_loads py_str rest cs ps p g1.
Proof.
  induction done as [|s done IH]; intros cs0 ps0 p g cs ps g1 H Hlen.
  - by injection H as <- <- <-.
  - destruct (generate_section_with_debate api json_loads py_str s ps0 p g)
      as [[v|e] g2] eqn:Es.
    2: { rewrite (story_loop_raise _ _ _ _ _ _ _ _ Es) in H. discriminate. }
    rewrite (story_loop_step _ _ _ _ _ _ _ _ Es) in H.
    change ((s :: done) ++ rest) with (s :: (done ++ rest)).
    rewrite (story_loop_step _ _ _ _ _ _ _ _ Es).
    destruct (truthy v).
    + apply IH; [done|]. rewrite length_app. simpl in *. lia.
    + injection H as <- <- <-. simpl in Hlen. lia.
Qed.

(** ** The whole run *)

Lemma iterate_state v g o g' : iterate v g = (o, g') -> g' = g.
Proof. destruct v; by intros [= _ <-]. Qed.

Lemma print_outline_state secs g o g' :
  print_outline secs g = (o, g') -> g' = g.
Proof.
  induction secs as [|s secs IH]; simpl; [by intros [= _ <-]|].
  unfold bind.
  destruct (subscript s (lit "section") g) as [[x|e] g1] eqn:E1;
    pose proof (subscript_state _ _ _ _ _ E1) as ->; [|by intros [= _ <-]].
  destruct (subscript s (lit "title") g) as [[y|e] g1] eqn:E2;
    pose proof (subscript_state _ _ _ _ _ E2) as ->; [|by intros [= _ <-]].
  destruct (subscript s (lit "summary") g) as [[z|e] g1] eqn:E3;
    pose proof (subscript_state _ _ _ _ _ E3) as ->; [|by intros [= _ <-]].
  apply IH.
Qed.

Lemma get_default_inv v key dflt g x g' :
  get_default v key dflt g = (Return x, g') ->
  exists m, v = PDict m /\ x = default dflt (m !! key) /\ g' = g.
Proof.
  destruct v; try discriminate. intros [= <- <-]. eauto.
Qed.

Lemma write_file_state name g o g' :
  write_file fs_write_ok name g = (o, g') -> g' = g.
Proof. unfold write_file. destruct (fs_write_ok name); by intros [= _ <-]. Qed.

(** What a run that returns a story went through. *)
Lemma complete_story_inv g story g' :
  generate_complete_debate_story api json_loads py_str fs_write_ok
    story_prompt_file g = (Return (Some story), g') ->
  exists text m outline secs g1 cs ps,
    story_prompt_file = Some text
    /\ generate_story_outline api json_loads fs_write_ok (strip text) g
       = (Return (PDict m), g1)
    /\ m !! lit "outline" = Some outline
    /\ iterate outline g1 = (Return secs, g1)
    /\ story_loop api json_loads py_str secs [] [] (strip text) g1
       = (Return (cs, ps), g')
    /\ cs <> []
    /\ story
       = assemble py_str
           (default (PStr (lit "Generated Debate Story")) (m !! lit "title"))
           cs.
Proof.
  unfold generate_complete_debate_story, read_story_prompt. intros H.
  destruct story_prompt_file as [text|]; [|discriminate].
  exists text.
  destruct (strip text) as [|c p] eqn:Ep; [discriminate|].
  unfold bind at 1 in H.
  destruct (generate_story_outline _ _ _ _ g) as [[od|e] g1] eqn:Eo;
    [|discriminate].
  destruct (negb (truthy od)); [discriminate|].
  unfold bind at 1 in H.
  destruct (get_default od _ _ g1) as [[t|e] gt] eqn:Et; [|discriminate].
  apply get_default_inv in Et as (m & -> & _ & ->).
  unfold bind at 1 in H.
  destruct (subscript (PDict m) (lit "outline") g1) as [[outline|e] gs] eqn:Es;
    [|discriminate].
  apply subscript_return in Es as (m' & [= <-] & Hout & ->).
  unfold bind at 1 in H.
  destruct (iterate outline g1) as [[secs|e] gi] eqn:Ei; [|discriminate].
  pose proof (iterate_state _ _ _ _ Ei) as ->.
  unfold bind at 1 in H.
  destruct (print_outline secs g1) as [[[]|e] gp] eqn:Epo; [|discriminate].
  pose proof (print_outline_state _ _ _ _ Epo) as ->.
  rewrite (bind_return _ _ _ _ _ (subscript_lookup _ _ _ g1 Hout)) in H.
  rewrite (bind_return _ _ _ _ _ Ei) in H.
  unfold bind at 1 in H.
  destruct (story_loop _ _ _ secs [] [] _ g1) as [[[cs ps]|e] g2] eqn:El;
    [|discriminate].
  simpl in H. destruct cs as [|c1 cs]; [discriminate|].
  unfold bind at 1 in H. simpl in H.
  unfold bind at 1 in H.
  destruct (write_file _ _ g2) as [[[]|e] gw] eqn:E1; [|discriminate].
  pose proof (write_file_state _ _ _ _ E1) as ->.
  unfold bind at 1 in H.
  destruct (write_file _ _ g2) as [[[]|e] gw] eqn:E2 in H; [|discriminate].
  pose proof (write_file_state _ _ _ _ E2) as ->.
  unfold bind at 1 in H.
  destruct (write_file _ _ g2) as [[[]|e] gw] eqn:E3 in H; [|discriminate].
  pose proof (write_file_state _ _ _ _ E3) as ->.
  injection H as <- <-.
  exists m, outline, secs, g1, (c1 :: cs), ps. by split_and!.
Qed.

(** C9. The text a run returns is [# title], a blank line, and the
    completed sections in outline order, each as [## section title], a
    blank line and its final text, with a blank line between
    consecutive sections. The title is the outline's [title], or
    [Generated Debate Story] when the outline has none. *)
Theorem story_text_is_title_and_sections g story g' :
  generate_complete_debate_story api json_loads py_str fs_write_ok
    story_prompt_file g = (Return (Some story), g') ->
  exists text m outline secs g1 cs ps,
    story_prompt_file = Some text
    /\ generate_story_outline api json_loads fs_write_ok (strip text) g
       = (Return (PDict m), g1)
    /\ m !! lit "outline" = Some outline
    /\ iterate outline g1 = (Return secs, g1)
    /\ story_loop api json_loads py_str secs [] [] (strip text) g1
       = (Return (cs, ps), g')
    /\ (0 < length ps <= length secs)%nat
    /\ story
       = lit "# "
         ++ fmt py_str
              (default (PStr (lit "Generated Debate Story"))
                       (m !! lit "title"))
         ++ nl ++ nl
         ++ join (nl ++ nl)
              (zip_with
                 (fun s final_text =>
                    lit "## " ++ fmt py_str (section_title s) ++ nl ++ nl
                    ++ fmt py_str final_text)
                 secs ps).
Proof.
  intros H.
  apply complete_story_inv in H
    as (text & m & outline & secs & g1 & cs & ps & Hf & Ho & Hout & Hi & Hl
        & Hcs & ->).
  exists text, m, outline, secs, g1, cs, ps. split_and!; try done.
  - destruct (story_loop_run _ _ _ _ _ _ _ _ Hl)
      as (finals & _ & _ & -> & -> & _).
    destruct finals; [by destruct secs|]. simpl. lia.
  - destruct (story_loop_run _ _ _ _ _ _ _ _ Hl)
      as (finals & _ & _ & -> & _ & Hlen & _). by cbn [app].
  - destruct (story_loop_run _ _ _ _ _ _ _ _ Hl)
      as (finals & _ & _ & -> & -> & _). reflexivity.
Qed.

Lemma get_default_dict (m : gmap str pyval) key dflt g :
  get_default (PDict m) key dflt g = (Return (default dflt (m !! key)), g).
Proof. reflexivity. Qed.

Lemma complete_story_run text m outline secs g g1 cs ps g2 :
  story_prompt_file = Some text ->
  strip text <> [] ->
  generate_story_outline api json_loads fs_write_ok (strip text) g
  = (Return (PDict m), g1) ->
  m <> ∅ ->
  m !! lit "outline" = Some outline ->
  iterate outline g1 = (Return secs, g1) ->
  print_outline secs g1 = (Return tt, g1) ->
  story_loop api json_loads py_str secs [] [] (strip text) g1
  = (Return (cs, ps), g2) ->
  fs_write_ok (lit "generated_debate_story.txt") = true ->
  fs_write_ok (lit "debate_log.json") = true ->
  fs_write_ok (lit "token_usage_log.json") = true ->
  generate_complete_debate_story api json_loads py_str fs_write_ok
    story_prompt_file g
  = (Return
       match cs with
       | [] => None
       | _ =>
           Some (assemble py_str
                   (default (PStr (lit "Generated Debate Story"))
                            (m !! lit "title")) cs)
       end, g2).
Proof.
  intros Hf Hp Ho Hm Hout Hi Hpo Hl W1 W2 W3.
  unfold generate_complete_debate_story, read_story_prompt. rewrite Hf.
  destruct (strip text) as [|c p] eqn:Ep; [done|].
  rewrite (bind_return _ _ _ _ _ Ho).
  assert (Ht : truthy (PDict m) = true).
  { simpl. by rewrite bool_decide_eq_false_2. }
  rewrite Ht. cbn [negb].
  rewrite (bind_return _ _ _ _ _ (get_default_dict _ _ _ g1)).
  rewrite (bind_return _ _ _ _ _ (subscript_lookup _ _ _ g1 Hout)).
  rewrite (bind_return _ _ _ _ _ Hi).
  rewrite (bind_return _ _ _ _ _ Hpo).
  rewrite (bind_return _ _ _ _ _ (subscript_lookup _ _ _ g1 Hout)).
  rewrite (bind_return _ _ _ _ _ Hi).
  rewrite (bind_return _ _ _ _ _ Hl).
  cbn [fst]. destruct cs as [|c1 cs]; [done|].
  rewrite (bind_return _ _ _ _ _ (get_default_dict _ _ _ g2)).
  unfold bind, write_file, ret. by rewrite W1, W2, W3.
Qed.

(** C4. Let the first sections [done] of the outline all be completed,
    and let the affirmative request of the next section [s] give
    nothing usable. Then the debate of [s] appends no record, its
    affirmative request is the last request of the run, the loop is
    left with the sections of [done] only, and the run returns the
    story made of exactly these sections (no story when [done] is
    empty). *)
Theorem affirmative_failure_stops_the_run
    text m done s rest g0 g cs ps g1 r g2 :
  story_prompt_file = Some text ->
  strip text <> [] ->
  generate_story_outline api json_loads fs_write_ok (strip text) g0
  = (Return (PDict m), g) ->
  m !! lit "outline" = Some (PList (done ++ s :: rest)) ->
  print_outline (done ++ s :: rest) g = (Return tt, g) ->
  fs_write_ok (lit "generated_debate_story.txt") = true ->
  fs_write_ok (lit "debate_log.json") = true ->
  fs_write_ok (lit "token_usage_log.json") = true ->
  story_loop api json_loads py_str done [] [] (strip text) g
  = (Return (cs, ps), g1) ->
  length ps = length done ->
  affirmative_writer api py_str s ps (strip text) g1 = (Return r, g2) ->
  truthy_opt r = false ->
  story_loop api json_loads py_str (done ++ s :: rest) [] [] (strip text) g
  = (Return (cs, ps), g2)
  /\ debate_log g2 = debate_log g1
  /\ (exists prompt,
        requests g2 = requests g1 ++ [(affirmative_writer_role, prompt)])
  /\ cs = rendered py_str done ps
  /\ generate_complete_debate_story api json_loads py_str fs_write_ok
       story_prompt_file g0
     = (Return
          match done with
          | [] => None
          | _ =>
              Some (assemble py_str
                      (default (PStr (lit "Generated Debate Story"))
                               (m !! lit "title"))
                      (rendered py_str done ps))
          end, g2).
Proof.
  intros Hf Hp Ho Hout Hpo W1 W2 W3 Hl Hlen Haff Hr.
  destruct (affirmative_writer_inv _ _ _ _ _ _ Haff)
    as (title & summary & section & Hk).
  assert (Hs : generate_section_with_debate api json_loads py_str s ps
                 (strip text) g1 = (Return PNone, g2)).
  { unfold generate_section_with_debate.
    rewrite (section_prologue _ _ _ _ _ _ Hk).
    rewrite (bind_return _ _ _ _ _ Haff).
    by destruct r as [[|c r]|]. }
  assert (Hloop : story_loop api json_loads py_str (done ++ s :: rest) [] []
                    (strip text) g = (Return (cs, ps), g2)).
  { rewrite (story_loop_app _ _ _ _ _ _ _ _ _ Hl) by done.
    by rewrite (story_loop_step _ _ _ _ _ _ _ _ Hs). }
  assert (Hcs : cs = rendered py_str done ps).
  { destruct (story_loop_run _ _ _ _ _ _ _ _ Hl)
      as (finals & _ & _ & -> & -> & _). reflexivity. }
  rewrite (affirmative_writer_keys _ _ _ _ _ _ _ Hk) in Haff.
  apply call_model_inv in Haff as (_ & Hlog & Hreq).
  split_and!; eauto.
  assert (Hm : m <> ∅).
  { intros ->. by rewrite lookup_empty in Hout. }
  rewrite (complete_story_run _ _ _ _ _ _ _ _ _ Hf Hp Ho Hm Hout
             eq_refl Hpo Hloop W1 W2 W3).
  rewrite Hcs. destruct done as [|d0 done]; [done|].
  destruct ps as [|p0 ps]; [done|]. reflexivity.
Qed.

(** C7, as the code has it. An outline that [generate_story_outline]
    returns is the value [json.loads] gives for the cleaned response,
    handed on unchanged: nothing checks how many sections it has or how
    they are numbered, so it has the six sections numbered 1 to 6 that
    the prompt asks for exactly when the decoded response has them. *)
Theorem outline_is_the_decoded_response p g :
  (forall v g',
     generate_story_outline api json_loads fs_write_ok p g = (Return v, g') ->
     v <> PNone ->
     exists r decoded,
       _call_model api (outline_prompt p) outline_generator g
       = (Return (Some r), g')
       /\ json_loads (_clean_json_response r) = Some decoded
       /\ v = decoded
       /\ outline_ok v = outline_ok decoded)
  /\ (forall r decoded g',
        _call_model api (outline_prompt p) outline_generator g
        = (Return (Some r), g') ->
        r <> [] ->
        json_loads (_clean_json_response r) = Some decoded ->
        fs_write_ok (lit "story_outline.json") = true ->
        generate_story_outline api json_loads fs_write_ok p g
        = (Return decoded, g')).
Proof.
  split.
  - intros v g' H Hv. unfold generate_story_outline, try_except in H.
    unfold bind at 1 in H.
    destruct (_call_model _ _ _ g) as [o g1] eqn:Ec.
    pose proof (call_model_inv _ _ _ _ _ Ec) as ([r ->] & _).
    destruct r as [[|c r]|]; try (injection H as <- _; done).
    destruct (json_loads _) as [decoded|] eqn:El;
      [|injection H as <- _; done].
    unfold bind, write_file, ret, raise in H.
    destruct (fs_write_ok _); injection H as <- <-; [|done].
    by exists (c :: r), decoded.
  - intros r decoded g' Hc Hr Hl Hw.
    unfold generate_story_outline, try_except.
    rewrite (bind_return _ _ _ _ _ Hc).
    destruct r as [|c r]; [done|]. rewrite Hl.
    unfold bind, write_file, ret. by rewrite Hw.
Qed.

End Properties.

(** * The statements on the example worlds *)

Lemma sample_section1_keys :
  section_keys Sample.section1 (PStr (lit "T1")) (PStr (lit "S1")) (PInt 1).
Proof. eexists. split_and!; [reflexivity|vm_compute; reflexivity..]. Qed.

Lemma sample_section2_keys :
  section_keys Sample.section2 (PStr (lit "T2")) (PStr (lit "S2")) (PInt 2).
Proof. eexists. split_and!; [reflexivity|vm_compute; reflexivity..]. Qed.

(** C1 on the debate whose negative request fails. *)
Lemma negative_failure_witness :
  let g1 := (affirmative_writer Runs.negative_fails Sample.py_str
               Sample.section1 [] Sample.prompt init).2 in
  let g2 := (negative_critic Runs.negative_fails Sample.py_str
               Sample.section1 (lit "A1") [] Sample.prompt g1).2 in
  generate_section_with_debate Runs.negative_fails Sample.json_loads
    Sample.py_str Sample.section1 [] Sample.prompt init
  = (Return (PStr (lit "A1")), g2)
  /\ debate_log g2 = debate_log init.
Proof.
  intros g1 g2.
  apply (negative_failure_keeps_affirmative_draft
           Runs.negative_fails Sample.json_loads Sample.py_str
           Sample.section1 [] Sample.prompt init (lit "A1") g1 None g2).
  - vm_compute. reflexivity.
  - discriminate.
  - vm_compute. reflexivity.
  - reflexivity.
Defined.

(** C1 as stated fails: in that debate the negative request fails
    after a usable affirmative draft, the draft is returned, and the
    debate log holds no record at all. *)
Lemma negative_failure_records_nothing :
  let run := generate_section_with_debate Runs.negative_fails
               Sample.json_loads Sample.py_str Sample.section1 []
               Sample.prompt init in
  run.1 = Return (PStr (lit "A1"))
  /\ requests run.2
     = [(affirmative_writer_role,
         affirmative_prompt Sample.prompt (lit "T1") (lit "S1") [] (lit "1"));
        (negative_critic_role,
         negative_prompt Sample.prompt (lit "T1") (lit "S1") [] (lit "A1")
                         (lit "1"))]
  /\ ~ exists record, record ∈ debate_log run.2.
Proof.
  intros run.
  assert (E : debate_log run.2 = []) by (vm_compute; reflexivity).
  split_and!; [vm_compute; reflexivity..|].
  rewrite E. intros [record H]. by apply elem_of_nil in H.
Qed.

(** C2 on the debate whose judge answers with a text that is not
    JSON. *)
Lemma judge_failure_witness :
  let api := Runs.judge_unparsable in
  let g1 := (affirmative_writer api Sample.py_str Sample.section1 []
               Sample.prompt init).2 in
  let g2 := (negative_critic api Sample.py_str Sample.section1 (lit "A1") []
               Sample.prompt g1).2 in
  let g3 := (_call_model api
               (judge_prompt (lit "1") (lit "T1") (lit "S1") (lit "A1")
                             (lit "N1"))
               judge_editor_role g2).2 in
  generate_section_with_debate api Sample.json_loads Sample.py_str
    Sample.section1 [] Sample.prompt init
  = (Return (PStr (lit "A1")), g3)
  /\ debate_log g3 = debate_log init.
Proof.
  intros api g1 g2 g3.
  apply (judge_failure_keeps_affirmative_draft
           api Sample.json_loads Sample.py_str Sample.section1
           (PStr (lit "T1")) (PStr (lit "S1")) (PInt 1) [] Sample.prompt init
           (lit "A1") g1 (lit "N1") g2 (Some (lit "not json")) g3).
  - exact sample_section1_keys.
  - vm_compute. reflexivity.
  - discriminate.
  - vm_compute. reflexivity.
  - discriminate.
  - vm_compute. reflexivity.
  - right. exists (lit "not json"). split; [reflexivity|].
    vm_compute. reflexivity.
Defined.

(** C2 as stated fails: in that debate the affirmative draft is
    returned and the debate log holds no record at all. *)
Lemma judge_failure_records_nothing :
  let run := generate_section_with_debate Runs.judge_unparsable
               Sample.json_loads Sample.py_str Sample.section1 []
               Sample.prompt init in
  run.1 = Return (PStr (lit "A1"))
  /\ (exists judge_request,
        requests run.2 !! 2%nat = Some (judge_editor_role, judge_request))
  /\ Sample.json_loads (_clean_json_response (lit "not json")) = None
  /\ ~ exists record, record ∈ debate_log run.2.
Proof.
  intros run.
  assert (E : debate_log run.2 = []) by (vm_compute; reflexivity).
  split_and!; [vm_compute; reflexivity| |vm_compute; reflexivity|].
  - eexists. vm_compute. reflexivity.
  - rewrite E. intros [record H]. by apply elem_of_nil in H.
Qed.

(** C10 on the debate whose judge leaves [final_section] out. *)
Lemma judge_decision_missing_key_witness :
  exists key g4,
    generate_section_with_debate Runs.judge_short Sample.json_loads
      Sample.py_str Sample.section1 [] Sample.prompt init
    = (Raise (KeyError key), g4)
    /\ Sample.short_decision_obj !! key = None
    /\ debate_log g4
       = debate_log init
         ++ [mk_debate_record (PInt 1) (PStr (lit "T1")) (lit "A1") (lit "N1")
                              (PDict Sample.short_decision_obj)]
    /\ forall rest complete_story,
         story_loop Runs.judge_short Sample.json_loads Sample.py_str
           (Sample.section1 :: rest) complete_story [] Sample.prompt init
         = (Raise (KeyError key), g4).
Proof.
  set (api := Runs.judge_short).
  set (g1 := (affirmative_writer api Sample.py_str Sample.section1 []
                Sample.prompt init).2).
  set (g2 := (negative_critic api Sample.py_str Sample.section1 (lit "A1") []
                Sample.prompt g1).2).
  set (text := lit "```json" ++ nl ++ Sample.short_decision_text ++ nl
               ++ lit "```").
  set (g3 := (_call_model api
                (judge_prompt (lit "1") (lit "T1") (lit "S1") (lit "A1")
                              (lit "N1"))
                judge_editor_role g2).2).
  apply (judge_decision_missing_key_raises
           api Sample.json_loads Sample.py_str Sample.section1
           (PStr (lit "T1")) (PStr (lit "S1")) (PInt 1) [] Sample.prompt init
           (lit "A1") g1 (lit "N1") g2 text g3 Sample.short_decision_obj).
  - exact sample_section1_keys.
  - vm_compute. reflexivity.
  - discriminate.
  - vm_compute. reflexivity.
  - discriminate.
  - vm_compute. reflexivity.
  - discriminate.
  - vm_compute. reflexivity.
  - intros E. apply (f_equal (fun m => m !! lit "reasoning")) in E.
    vm_compute in E. discriminate.
  - right. vm_compute. reflexivity.
Defined.




(** C4 on the two-section run whose second affirmative request
    fails. *)
Lemma affirmative_failure_witness :
  let api := Runs.second_affirmative_fails in
  let text := lit "A boy finds a light in the forest" in
  let g := (generate_story_outline api Sample.json_loads
              Sample.all_writes_ok (strip text) init).2 in
  let g1 := (story_loop api Sample.json_loads Sample.py_str
               [Sample.section1] [] [] (strip text) g).2 in
  let ps := [PStr (lit "F1")] in
  let g2 := (affirmative_writer api Sample.py_str Sample.section2 ps
               (strip text) g1).2 in
  story_loop api Sample.json_loads Sample.py_str
    [Sample.section1; Sample.section2] [] [] (strip text) g
  = (Return ([lit "## T1" ++ nl ++ nl ++ lit "F1"], ps), g2)
  /\ debate_log g2 = debate_log g1
  /\ (exists prompt,
        requests g2 = requests g1 ++ [(affirmative_writer_role, prompt)])
  /\ generate_complete_debate_story api Sample.json_loads Sample.py_str
       Sample.all_writes_ok Runs.prompt_file init
     = (Return (Some (lit "# Tale" ++ nl ++ nl ++ lit "## T1" ++ nl ++ nl
                      ++ lit "F1")), g2).
Proof.
  intros api text g g1 ps g2.
  destruct (affirmative_failure_stops_the_run
              api Sample.json_loads Sample.py_str Sample.all_writes_ok
              Runs.prompt_file text
              (<[lit "title" := PStr (lit "Tale")]>
               (<[lit "outline" := PList [Sample.section1; Sample.section2]]>
                ∅))
              [Sample.section1] Sample.section2 [] init g
              [lit "## T1" ++ nl ++ nl ++ lit "F1"] ps g1 None g2)
    as (H1 & H2 & H3 & _ & H5).
  - reflexivity.
  - vm_compute. discriminate.
  - vm_compute. reflexivity.
  - vm_compute. reflexivity.
  - vm_compute. reflexivity.
  - reflexivity.
  - reflexivity.
  - reflexivity.
  - vm_compute. reflexivity.
  - reflexivity.
  - vm_compute. reflexivity.
  - reflexivity.
  - split_and!; [exact H1|exact H2|exact H3|].
    rewrite H5. vm_compute. reflexivity.
Defined.

(** C6 on three requests of the two-section run, whose usage blocks
    all have a total equal to prompt plus completion. *)
Lemma usage_totals_witness :
  let t := token_usage
             (record_calls Runs.two_sections
                [(outline_generator, Sample.prompt);
                 (affirmative_writer_role, Sample.prompt);
                 (negative_critic_role, Sample.prompt)] init) in
  usage_sums t
  /\ total_tokens t = sum_by_agent agent_total (by_agent t).
Proof.
  intros t.
  destruct (usage_totals_are_sums_over_roles Runs.two_sections
              [(outline_generator, Sample.prompt);
               (affirmative_writer_role, Sample.prompt);
               (negative_critic_role, Sample.prompt)]) as [H1 H2].
  - repeat constructor; vm_compute; set_solver.
  - split; [exact H1|]. apply H2.
    intros n prompt a u content. unfold Runs.two_sections, Sample.script_api.
    do 7 (destruct n as [|n]; [intros [= <- _]; reflexivity|]); discriminate.
Defined.

(** C6 as stated fails: after one affirmative request whose usage
    block reports 1 prompt token, 1 completion token and a total of 3,
    the global total is 3 and the per-role totals add up to 2. *)
Lemma global_total_differs_from_role_totals :
  let t := token_usage
             (record_calls Runs.odd_total
                [(affirmative_writer_role, Sample.prompt)] init) in
  total_tokens t = 3
  /\ sum_by_agent agent_total (by_agent t) = 2
  /\ total_tokens t <> sum_by_agent agent_total (by_agent t).
Proof.
  intros t.
  assert (E1 : total_tokens t = 3) by (vm_compute; reflexivity).
  assert (E2 : sum_by_agent agent_total (by_agent t) = 2)
    by (vm_compute; reflexivity).
  split_and!; [done|done|]. rewrite E1, E2. discriminate.
Qed.

(** C7 on the one-section run. *)
Lemma outline_decoded_witness :
  let api := Runs.one_section_fallback in
  let run := generate_story_outline api Sample.json_loads
               Sample.all_writes_ok Sample.prompt init in
  let r := lit "```json" ++ nl ++ Sample.outline1_text ++ nl ++ lit "```" in
  _call_model api (outline_prompt Sample.prompt) outline_generator init
  = (Return (Some r), run.2)
  /\ run = (Return (Sample.outline_obj [Sample.section1]), run.2).
Proof.
  intros api run r.
  assert (Hc : _call_model api (outline_prompt Sample.prompt)
                 outline_generator init = (Return (Some r), run.2))
    by (vm_compute; reflexivity).
  split; [exact Hc|].
  apply (proj2 (outline_is_the_decoded_response
                  api Sample.json_loads Sample.all_writes_ok Sample.prompt
                  init) r (Sample.outline_obj [Sample.section1]) run.2).
  - exact Hc.
  - discriminate.
  - vm_compute. reflexivity.
  - reflexivity.
Defined.

(** C7 as stated fails: when the service answers with an outline of
    one section, that outline is what [generate_story_outline]
    returns. *)
Lemma outline_with_one_section_is_returned :
  exists v g',
    generate_story_outline Runs.one_section_fallback Sample.json_loads
      Sample.all_writes_ok Sample.prompt init = (Return v, g')
    /\ v = Sample.outline_obj [Sample.section1]
    /\ subscript v (lit "outline") g' = (Return (PList [Sample.section1]), g')
    /\ length [Sample.section1] <> 6%nat
    /\ outline_ok v = false.
Proof.
  eexists _, _. split_and!; [vm_compute; reflexivity|reflexivity| | |].
  - vm_compute. reflexivity.
  - discriminate.
  - vm_compute. reflexivity.
Qed.

(** C8 on a fenced answer, a bare answer, and a service that answers
    the outline request with a text that is not JSON. *)
Lemma outline_fences_witness :
  let api := Sample.script_api [Sample.answer "not json"] in
  _clean_json_response (lit "```json" ++ (nl ++ lit "{}" ++ nl) ++ lit "```")
  = lit "{}"
  /\ _clean_json_response (lit "```" ++ (nl ++ lit "{}" ++ nl) ++ lit "```")
     = lit "{}"
  /\ _clean_json_response (lit "```json" ++ (nl ++ lit "{}")) = lit "{}"
  /\ _clean_json_response (lit "```" ++ (nl ++ lit "{}")) = lit "{}"
  /\ _clean_json_response ((lit "{}" ++ nl) ++ lit "```") = lit "{}"
  /\ _clean_json_response (lit "{}") = lit "{}"
  /\ generate_story_outline api Sample.json_loads Sample.all_writes_ok
       Sample.prompt init
     = (Return PNone,
        (_call_model api (outline_prompt Sample.prompt) outline_generator
           init).2).
Proof.
  intros api.
  destruct (outline_fences_stripped_and_parse_failure_returned
              api Sample.json_loads Sample.all_writes_ok)
    as (H1 & H2 & H3 & H4 & H5 & H6 & _ & H8).
  split_and!.
  - rewrite H1. vm_compute. reflexivity.
  - rewrite H2; vm_compute; reflexivity.
  - rewrite H3; vm_compute; reflexivity.
  - rewrite H4; vm_compute; reflexivity.
  - rewrite H5; vm_compute; reflexivity.
  - rewrite H6; vm_compute; reflexivity.
  - apply (H8 Sample.prompt init (lit "not json")); vm_compute; reflexivity.
Defined.

(** C9 on the two-section run. *)
Lemma story_text_witness :
  let story := lit "# Tale" ++ nl ++ nl ++ lit "## T1" ++ nl ++ nl ++ lit "F1"
               ++ nl ++ nl ++ lit "## T2" ++ nl ++ nl ++ lit "A2" in
  let run := generate_complete_debate_story Runs.two_sections
               Sample.json_loads Sample.py_str Sample.all_writes_ok
               Runs.prompt_file init in
  run = (Return (Some story), run.2)
  /\ exists (m : gmap str pyval) secs ps,
       (0 < length ps <= length secs)%nat
       /\ story
          = lit "# "
            ++ fmt Sample.py_str
                 (default (PStr (lit "Generated Debate Story"))
                          (m !! lit "title"))
            ++ nl ++ nl
            ++ join (nl ++ nl)
                 (zip_with
                    (fun s final_text =>
                       lit "## " ++ fmt Sample.py_str (section_title s)
                       ++ nl ++ nl ++ fmt Sample.py_str final_text)
                    secs ps).
Proof.
  intros story run.
  assert (Hrun : run = (Return (Some story), run.2))
    by (vm_compute; reflexivity).
  split; [exact Hrun|].
  destruct (story_text_is_title_and_sections
              Runs.two_sections Sample.json_loads Sample.py_str
              Sample.all_writes_ok Runs.prompt_file init story run.2 Hrun)
    as (text & m & outline & secs & g1 & cs & ps & _ & _ & _ & _ & _ & Hlen
        & Hstory).
  exists m, secs, ps. split; [exact Hlen|exact Hstory].
Defined.

(** * More of the generator

    Properties of the functions around the claims: what
    [_call_model] hands back, how fencing and stripping compose, the
    debates that do not fall back, the ways a run ends early, and what
    a run never undoes. *)

(** ** Stripping *)

Lemma lstrip_all_space (w s : str) : all_space w -> lstrip (w ++ s) = lstrip s.
Proof.
  induction 1 as [|c w Hc _ IH]; [done|]. simpl. by rewrite Hc.
Qed.

Lemma lstrip_snoc (s : str) (c : N) :
  isspace c = false -> lstrip (s ++ [c]) = lstrip s ++ [c].
Proof.
  intros Hc. induction s as [|a s IH]; simpl.
  - by rewrite Hc.
  - by destruct (isspace a).
Qed.

Lemma lstrip_idem (s : str) : lstrip (lstrip s) = lstrip s.
Proof.
  induction s as [|a s IH]; [done|]. simpl.
  destruct (isspace a) eqn:Ea; [done|]. simpl. by rewrite Ea.
Qed.

Lemma lstrip_fixed (c : N) (s : str) :
  isspace c = false -> lstrip (c :: s) = c :: s.
Proof. intros Hc. simpl. by rewrite Hc. Qed.

Lemma lstrip_cases (s : str) :
  lstrip s = [] \/ exists c t, lstrip s = c :: t /\ isspace c = false.
Proof.
  induction s as [|a s IH]; [by left|]. simpl.
  destruct (isspace a) eqn:Ea; [done|]. right. by exists a, s.
Qed.

Lemma rstrip_all_space (s w : str) : all_space w -> rstrip (s ++ w) = rstrip s.
Proof.
  intros Hw. unfold rstrip. rewrite rev_app_distr.
  rewrite lstrip_all_space; [done|].
  unfold all_space in *. rewrite Forall_forall in *.
  intros c Hc. apply Hw. apply list_elem_of_In. apply in_rev.
  by apply list_elem_of_In.
Qed.

Lemma rstrip_idem (s : str) : rstrip (rstrip s) = rstrip s.
Proof. unfold rstrip. by rewrite rev_involutive, lstrip_idem. Qed.

(** Stripping the right end keeps a first character that is not
    whitespace. *)
Lemma rstrip_keeps_head (c : N) (s : str) :
  isspace c = false -> exists t, rstrip (c :: s) = c :: t.
Proof.
  intros Hc. unfold rstrip. simpl.
  rewrite (lstrip_snoc _ _ Hc), rev_app_distr. simpl. eauto.
Qed.

Lemma strip_idem (s : str) : strip (strip s) = strip s.
Proof.
  unfold strip. destruct (lstrip_cases s) as [->|(c & t & -> & Hc)].
  - reflexivity.
  - destruct (rstrip_keeps_head c t Hc) as [u Hu].
    rewrite Hu, (lstrip_fixed _ _ Hc), <- Hu. apply rstrip_idem.
Qed.

Lemma lstrip_nil_all_space (s : str) : lstrip s = [] -> all_space s.
Proof.
  induction s as [|a s IH]; [constructor|]. simpl.
  destruct (isspace a) eqn:Ea; [|done]. intros E.
  apply Forall_cons. split; [exact Ea|exact (IH E)].
Qed.

Lemma lstrip_app (s w : str) :
  lstrip s <> [] -> lstrip (s ++ w) = lstrip s ++ w.
Proof.
  induction s as [|a s IH]; [done|]. simpl.
  destruct (isspace a) eqn:Ea; [apply IH|done].
Qed.

(** Whitespace around a text does not change what stripping gives. *)
Lemma strip_padded (w1 s w2 : str) :
  all_space w1 -> all_space w2 -> strip (w1 ++ s ++ w2) = strip s.
Proof.
  intros H1 H2. unfold strip. rewrite (lstrip_all_space _ _ H1).
  destruct (lstrip s) as [|c t] eqn:E.
  - pose proof (lstrip_nil_all_space _ E) as Hs.
    rewrite (lstrip_all_space _ _ Hs), <- (app_nil_r w2).
    by rewrite (lstrip_all_space _ _ H2).
  - rewrite lstrip_app by (by rewrite E). rewrite E.
    by apply rstrip_all_space.
Qed.

Lemma strip_fixed (c d : N) (m : str) :
  isspace c = false -> isspace d = false ->
  strip (c :: m ++ [d]) = c :: m ++ [d].
Proof.
  intros Hc Hd. unfold strip. rewrite (lstrip_fixed _ _ Hc).
  unfold rstrip.
  replace (rev (c :: m ++ [d])) with (d :: rev (c :: m)).
  2: { change (c :: m ++ [d]) with ((c :: m) ++ [d]).
       by rewrite rev_app_distr. }
  rewrite (lstrip_fixed _ _ Hd).
  change (d :: rev (c :: m)) with ([d] ++ rev (c :: m)).
  by rewrite rev_app_distr, rev_involutive.
Qed.

Section Extras.

Variable api : nat -> str -> str -> api_result.
Variable json_loads : str -> option pyval.
Variable py_str : pyval -> str.
Variable fs_write_ok : str -> bool.
Variable story_prompt_file : option str.

(** X1. [_call_model] never raises, and the text it returns is already
    stripped: stripping it again changes nothing. *)
Theorem call_model_returns_stripped_text (prompt agent_type : str) g :
  match (_call_model api prompt agent_type g).1 with
  | Return (Some r) => strip r = r
  | Return None => True
  | Raise _ => False
  end.
Proof.
  unfold _call_model.
  destruct (api _ _ _) as [| | |u [[|c content]|]]; simpl; try done.
  apply strip_idem.
Qed.

(** What [_call_model] returns for an answer whose content is a fenced
    block with whitespace around it. *)
Lemma call_model_fenced (prompt agent_type : str) g u pre body post :
  all_space pre -> all_space post ->
  api (length (requests g)) prompt agent_type
  = ApiResponse u (Some (pre ++ (lit "```json" ++ body ++ lit "```") ++ post)) ->
  (_call_model api prompt agent_type g).1
  = Return (Some (lit "```json" ++ body ++ lit "```")).
Proof.
  intros H1 H2 Hapi. unfold _call_model. rewrite Hapi.
  assert (Hcore : strip (lit "```json" ++ body ++ lit "```")
                  = lit "```json" ++ body ++ lit "```").
  { assert (E0 : lit "```json" ++ body ++ lit "```"
                 = 96%N :: (lit "``json" ++ body ++ lit "``") ++ [96%N]).
    { rewrite <- !app_assoc. reflexivity. }
    rewrite E0. apply strip_fixed; reflexivity. }
  destruct (pre ++ (lit "```json" ++ body ++ lit "```") ++ post)
    as [|c content] eqn:E.
  - exfalso. apply app_eq_nil in E as [_ E]. discriminate.
  - simpl. rewrite <- E. by rewrite (strip_padded _ _ _ H1 H2), Hcore.
Qed.

Lemma clean_json_fenced (body : str) :
  _clean_json_response (lit "```json" ++ body ++ lit "```") = strip body.
Proof.
  unfold _clean_json_response. rewrite startswith_app.
  change 7%nat with (length (lit "```json")). rewrite drop_app_length.
  rewrite endswith_app.
  change 3%nat with (length (lit "```")). by rewrite drop_suffix_app.
Qed.

(** X2. When the service answers the outline request with a
    [```json] block, its text on lines of its own, and any whitespace
    around the block, [generate_story_outline] decodes exactly the
    stripped text of the block: [_call_model] strips the whitespace
    around the block and [_clean_json_response] the fences and the
    whitespace inside. It returns the decoded value, or [None] when
    the text is rejected or the outline file cannot be written. *)
Theorem fenced_outline_is_decoded p g u pre t post :
  all_space pre -> all_space post ->
  api (length (requests g)) (outline_prompt p) outline_generator
  = ApiResponse u
      (Some (pre ++ (lit "```json" ++ (nl ++ t ++ nl) ++ lit "```") ++ post)) ->
  (generate_story_outline api json_loads fs_write_ok p g).1
  = Return
      match json_loads (strip t) with
      | Some v => if fs_write_ok (lit "story_outline.json") then v else PNone
      | None => PNone
      end.
Proof.
  intros H1 H2 Hapi.
  pose proof (call_model_fenced _ _ _ _ _ _ _ H1 H2 Hapi) as Hc.
  remember (lit "```json" ++ (nl ++ t ++ nl) ++ lit "```") as core eqn:Ecore.
  unfold generate_story_outline, try_except, bind.
  destruct (_call_model api (outline_prompt p) outline_generator g)
    as [o g1]. cbn [fst] in Hc. subst o.
  destruct core as [|c0 core]; [discriminate|].
  rewrite Ecore, clean_json_fenced.
  assert (Hnl : all_space nl) by (repeat constructor).
  rewrite (strip_padded _ _ _ Hnl Hnl).
  destruct (json_loads (strip t)) as [v|]; [|reflexivity].
  unfold write_file, ret, raise.
  by destruct (fs_write_ok (lit "story_outline.json")).
Qed.

(** ** Debates that reach the judge *)

(** A debate whose three requests are answered and whose judge answer
    is decoded: the record is appended, and the decision alone decides
    what comes back. *)
Lemma debate_with_decision s title summary section ps p g d g1 n g2 text g3 jd :
  section_keys s title summary section ->
  affirmative_writer api py_str s ps p g = (Return (Some d), g1) ->
  d <> [] ->
  negative_critic api py_str s d ps p g1 = (Return (Some n), g2) ->
  n <> [] ->
  _call_model api
    (judge_prompt (fmt py_str section) (fmt py_str title)
                  (fmt py_str summary) d n)
    judge_editor_role g2 = (Return (Some text), g3) ->
  text <> [] ->
  json_loads (_clean_json_response text) = Some jd ->
  let g4 := mk_generator
              (debate_log g3 ++ [mk_debate_record section title d n jd])
              (token_usage g3) (requests g3) in
  generate_section_with_debate api json_loads py_str s ps p g
  = (if negb (truthy jd) then ret (PStr d)
     else exec subscript jd (lit "preferred_version") in
          exec subscript jd (lit "reasoning") in
          subscript jd (lit "final_section")) g4
  /\ debate_log g4
     = debate_log g ++ [mk_debate_record section title d n jd]
  /\ requests g4
     = requests g
       ++ [(affirmative_writer_role,
            affirmative_prompt p (fmt py_str title) (fmt py_str summary)
                               (build_context py_str ps) (fmt py_str section));
           (negative_critic_role,
            negative_prompt p (fmt py_str title) (fmt py_str summary)
                            (build_context py_str ps) d (fmt py_str section));
           (judge_editor_role,
            judge_prompt (fmt py_str section) (fmt py_str title)
                         (fmt py_str summary) d n)].
Proof.
  intros Hk Haff Hd Hneg Hn Hcall Ht Hl g4.
  assert (Hj : judge_editor api json_loads py_str s d n ps g2
               = (Return jd, g4)).
  { rewrite (judge_editor_keys api json_loads py_str _ _ _ _ _ _ ps _ _ _ Hk Hcall).
    unfold judged. rewrite Hl. by destruct text. }
  split_and!.
  - unfold generate_section_with_debate.
    rewrite (section_prologue _ _ _ _ _ _ Hk).
    rewrite (bind_return _ _ _ _ _ Haff).
    destruct d as [|c d]; [done|].
    rewrite (bind_return _ _ _ _ _ Hneg).
    destruct n as [|c' n]; [done|].
    by rewrite (bind_return _ _ _ _ _ Hj).
  - rewrite (affirmative_writer_keys api py_str _ _ _ _ _ _ _ Hk) in Haff.
    rewrite (negative_critic_keys api py_str _ _ _ _ _ _ _ _ Hk) in Hneg.
    apply call_model_inv in Haff as (_ & Ha & _).
    apply call_model_inv in Hneg as (_ & Hn' & _).
    apply call_model_inv in Hcall as (_ & Hc & _).
    simpl. congruence.
  - rewrite (affirmative_writer_keys api py_str _ _ _ _ _ _ _ Hk) in Haff.
    rewrite (negative_critic_keys api py_str _ _ _ _ _ _ _ _ Hk) in Hneg.
    apply call_model_inv in Haff as (_ & _ & Ha).
    apply call_model_inv in Hneg as (_ & _ & Hn').
    apply call_model_inv in Hcall as (_ & _ & Hc).
    simpl. rewrite Hc, Hn', Ha, <- !app_assoc. reflexivity.
Qed.

(** X3. A debate whose three requests are answered and whose judge
    decision has [preferred_version], [reasoning] and [final_section]
    returns the decision's [final_section], whichever version was
    preferred, sends exactly the affirmative, negative and judge
    requests in that order, and appends one record holding both drafts
    and the decision. *)
Theorem full_debate_returns_final_section
    s title summary section ps p g d g1 n g2 text g3 jd pv why final :
  section_keys s title summary section ->
  affirmative_writer api py_str s ps p g = (Return (Some d), g1) ->
  d <> [] ->
  negative_critic api py_str s d ps p g1 = (Return (Some n), g2) ->
  n <> [] ->
  _call_model api
    (judge_prompt (fmt py_str section) (fmt py_str title)
                  (fmt py_str summary) d n)
    judge_editor_role g2 = (Return (Some text), g3) ->
  text <> [] ->
  json_loads (_clean_json_response text) = Some (PDict jd) ->
  jd !! lit "preferred_version" = Some pv ->
  jd !! lit "reasoning" = Some why ->
  jd !! lit "final_section" = Some final ->
  exists g4,
    generate_section_with_debate api json_loads py_str s ps p g
    = (Return final, g4)
    /\ debate_log g4
       = debate_log g ++ [mk_debate_record section title d n (PDict jd)]
    /\ requests g4
       = requests g
         ++ [(affirmative_writer_role,
              affirmative_prompt p (fmt py_str title) (fmt py_str summary)
                                 (build_context py_str ps)
                                 (fmt py_str section));
             (negative_critic_role,
              negative_prompt p (fmt py_str title) (fmt py_str summary)
                              (build_context py_str ps) d
                              (fmt py_str section));
             (judge_editor_role,
              judge_prompt (fmt py_str section) (fmt py_str title)
                           (fmt py_str summary) d n)].
Proof.
  intros Hk Haff Hd Hneg Hn Hcall Ht Hl Hpv Hwhy Hfinal.
  destruct (debate_with_decision _ _ _ _ _ _ _ _ _ _ _ _ _ _
              Hk Haff Hd Hneg Hn Hcall Ht Hl) as (Hrun & Hlog & Hreq).
  eexists. split_and!; [|exact Hlog|exact Hreq].
  rewrite Hrun.
  assert (Htr : truthy (PDict jd) = true).
  { simpl. rewrite bool_decide_eq_false_2; [done|].
    intros ->. by rewrite lookup_empty in Hpv. }
  rewrite Htr. cbn [negb].
  unfold bind, subscript, ret. by rewrite Hpv, Hwhy, Hfinal.
Qed.

(** X4. When the judge answer decodes to a value that counts as false
    ([null], [false], [0], an empty text, list or object), the debate
    falls back to the affirmative draft although [judge_editor] has
    already appended a record holding that decision. *)
Theorem falsy_decision_is_recorded_and_ignored
    s title summary section ps p g d g1 n g2 text g3 jd :
  section_keys s title summary section ->
  affirmative_writer api py_str s ps p g = (Return (Some d), g1) ->
  d <> [] ->
  negative_critic api py_str s d ps p g1 = (Return (Some n), g2) ->
  n <> [] ->
  _call_model api
    (judge_prompt (fmt py_str section) (fmt py_str title)
                  (fmt py_str summary) d n)
    judge_editor_role g2 = (Return (Some text), g3) ->
  text <> [] ->
  json_loads (_clean_json_response text) = Some jd ->
  truthy jd = false ->
  exists g4,
    generate_section_with_debate api json_loads py_str s ps p g
    = (Return (PStr d), g4)
    /\ debate_log g4
       = debate_log g ++ [mk_debate_record section title d n jd].
Proof.
  intros Hk Haff Hd Hneg Hn Hcall Ht Hl Hjd.
  destruct (debate_with_decision _ _ _ _ _ _ _ _ _ _ _ _ _ _
              Hk Haff Hd Hneg Hn Hcall Ht Hl) as (Hrun & Hlog & _).
  eexists. split; [|exact Hlog]. rewrite Hrun, Hjd. reflexivity.
Qed.

(** X5. When the judge answer decodes to a value that counts as true
    and is not an object (a number, [true], a non-empty text or list),
    the debate raises [TypeError] at [judge_decision['preferred_version']]
    after the record has been appended, and the section loop lets the
    exception through. *)
Theorem non_object_decision_raises_type_error
    s title summary section ps p g d g1 n g2 text g3 jd :
  section_keys s title summary section ->
  affirmative_writer api py_str s ps p g = (Return (Some d), g1) ->
  d <> [] ->
  negative_critic api py_str s d ps p g1 = (Return (Some n), g2) ->
  n <> [] ->
  _call_model api
    (judge_prompt (fmt py_str section) (fmt py_str title)
                  (fmt py_str summary) d n)
    judge_editor_role g2 = (Return (Some text), g3) ->
  text <> [] ->
  json_loads (_clean_json_response text) = Some jd ->
  truthy jd = true ->
  (forall m, jd <> PDict m) ->
  exists g4,
    generate_section_with_debate api json_loads py_str s ps p g
    = (Raise TypeError, g4)
    /\ debate_log g4
       = debate_log g ++ [mk_debate_record section title d n jd]
    /\ forall rest complete_story,
         story_loop api json_loads py_str (s :: rest) complete_story ps p g
         = (Raise TypeError, g4).
Proof.
  intros Hk Haff Hd Hneg Hn Hcall Ht Hl Hjd Hobj.
  destruct (debate_with_decision _ _ _ _ _ _ _ _ _ _ _ _ _ _
              Hk Haff Hd Hneg Hn Hcall Ht Hl) as (Hrun & Hlog & _).
  assert (Hr : generate_section_with_debate api json_loads py_str s ps p g
               = (Raise TypeError,
                  mk_generator
                    (debate_log g3 ++ [mk_debate_record section title d n jd])
                    (token_usage g3) (requests g3))).
  { rewrite Hrun, Hjd. cbn [negb]. unfold bind, subscript, raise.
    destruct jd; try reflexivity. by destruct (Hobj d0). }
  eexists. split_and!; [exact Hr|exact Hlog|].
  intros rest cs. by apply story_loop_raise.
Qed.

(** X6. A section that is not an object with [section], [title] and
    [summary] makes the debate raise [TypeError] or a [KeyError] for
    the missing key before any request is sent: the generator is left
    as it was. *)
Theorem malformed_section_raises_before_any_request s ps p g :
  (forall title summary section, ~ section_keys s title summary section) ->
  exists e,
    generate_section_with_debate api json_loads py_str s ps p g = (Raise e, g)
    /\ (e = TypeError
        \/ e = KeyError (lit "section")
        \/ e = KeyError (lit "title")
        \/ e = KeyError (lit "summary")).
Proof.
  intros Hbad. unfold generate_section_with_debate, affirmative_writer.
  destruct s as [| | | | | |m];
    try (exists TypeError; split; [reflexivity|by left]).
  unfold bind, subscript, ret, raise.
  destruct (m !! lit "section") as [n|] eqn:En; [|eauto 6].
  destruct (m !! lit "title") as [t|] eqn:Et; [|eauto 6].
  destruct (m !! lit "summary") as [u|] eqn:Eu; [|eauto 6].
  destruct (Hbad t u n). by exists m.
Qed.

(** ** Runs that end early *)

Lemma strip_all_space (s : str) : all_space s -> strip s = [].
Proof.
  intros Hs. unfold strip. rewrite <- (app_nil_r s).
  by rewrite (lstrip_all_space _ _ Hs).
Qed.

(** X7. [generate_story_outline] sends exactly one request, in the
    [outline_generator] role, whatever comes of it, never raises, and
    leaves the debate log alone. *)
Theorem outline_sends_one_request p g :
  let run := generate_story_outline api json_loads fs_write_ok p g in
  (exists v, run.1 = Return v)
  /\ requests run.2 = requests g ++ [(outline_generator, outline_prompt p)]
  /\ debate_log run.2 = debate_log g.
Proof.
  unfold generate_story_outline, try_except, bind. simpl.
  destruct (_call_model api (outline_prompt p) outline_generator g)
    as [o g1] eqn:Ec.
  apply call_model_inv in Ec as ([r ->] & Hlog & Hreq).
  destruct r as [[|c r]|]; simpl; eauto.
  destruct (json_loads _) as [v|]; simpl; eauto.
  unfold write_file, ret, raise.
  destruct (fs_write_ok _); simpl; eauto.
Qed.

(** X8. A prompt file that is missing, unreadable, empty or made of
    whitespace only ends the run at once with [None]: no request is
    sent and the generator is left as it was. *)
Theorem blank_prompt_ends_the_run g :
  story_prompt_file = None
  \/ (exists text, story_prompt_file = Some text /\ all_space text) ->
  generate_complete_debate_story api json_loads py_str fs_write_ok
    story_prompt_file g = (Return None, g).
Proof.
  unfold generate_complete_debate_story, read_story_prompt.
  intros [->|(text & -> & Hs)]; [reflexivity|].
  by rewrite (strip_all_space _ Hs).
Qed.

(** X9. When the outline request gives nothing usable (no text, a
    text [json.loads] rejects, an outline file that cannot be written)
    or an outline that counts as false (such as [{}]), the run ends
    with [None] after that single request: no debate is started. *)
Theorem unusable_outline_ends_the_run text g v g1 :
  story_prompt_file = Some text ->
  strip text <> [] ->
  generate_story_outline api json_loads fs_write_ok (strip text) g
  = (Return v, g1) ->
  truthy v = false ->
  generate_complete_debate_story api json_loads py_str fs_write_ok
    story_prompt_file g = (Return None, g1)
  /\ requests g1
     = requests g ++ [(outline_generator, outline_prompt (strip text))]
  /\ debate_log g1 = debate_log g.
Proof.
  intros Hf Hp Ho Hv.
  pose proof (outline_sends_one_request (strip text) g) as (_ & Hreq & Hlog).
  rewrite Ho in Hreq, Hlog. split_and!; [|exact Hreq|exact Hlog].
  unfold generate_complete_debate_story, read_story_prompt. rewrite Hf.
  destruct (strip text) as [|c p]; [done|].
  by rewrite (bind_return _ _ _ _ _ Ho), Hv.
Qed.

(** The loop that prints the outline raises as soon as a section is
    not an object with the three keys. *)
Lemma print_outline_malformed secs g :
  Exists (fun s => forall title summary section,
            ~ section_keys s title summary section) secs ->
  exists e, print_outline secs g = (Raise e, g).
Proof.
  induction 1 as [s secs Hbad|s secs _ IH]; simpl.
  - unfold bind, subscript, ret, raise.
    destruct s as [| | | | | |m]; eauto.
    destruct (m !! lit "section") as [n|] eqn:En; [|eauto].
    destruct (m !! lit "title") as [t|] eqn:Et; [|eauto].
    destruct (m !! lit "summary") as [u|] eqn:Eu; [|eauto].
    destruct (Hbad t u n). by exists m.
  - unfold bind.
    destruct (subscript s (lit "section") g) as [[x|e] g1] eqn:E1;
      pose proof (subscript_state _ _ _ _ _ E1) as ->; [|eauto].
    destruct (subscript s (lit "title") g) as [[y|e] g1] eqn:E2;
      pose proof (subscript_state _ _ _ _ _ E2) as ->; [|eauto].
    destruct (subscript s (lit "summary") g) as [[z|e] g1] eqn:E3;
      pose proof (subscript_state _ _ _ _ _ E3) as ->; [|eauto].
    exact IH.
Qed.

(** X10. An outline that counts as true but does not have the expected
    shape makes the run raise right after the outline request, with no
    debate started: [AttributeError] when it is not an object,
    [KeyError] when it has no [outline], [TypeError] when its [outline]
    is [null], a boolean or a number. *)
Theorem malformed_outline_raises text g v g1 :
  story_prompt_file = Some text ->
  strip text <> [] ->
  generate_story_outline api json_loads fs_write_ok (strip text) g
  = (Return v, g1) ->
  truthy v = true ->
  let run := generate_complete_debate_story api json_loads py_str
               fs_write_ok story_prompt_file g in
  ((forall m, v <> PDict m) -> run = (Raise AttributeError, g1))
  /\ (forall m, v = PDict m -> m !! lit "outline" = None ->
        run = (Raise (KeyError (lit "outline")), g1))
  /\ (forall m o, v = PDict m -> m !! lit "outline" = Some o ->
        match o with
        | PNone | PBool _ | PInt _ | PFloat _ => True
        | _ => False
        end ->
        run = (Raise TypeError, g1))
  /\ requests g1
     = requests g ++ [(outline_generator, outline_prompt (strip text))].
Proof.
  intros Hf Hp Ho Hv run.
  pose proof (outline_sends_one_request (strip text) g) as (_ & Hreq & _).
  rewrite Ho in Hreq.
  assert (Hrun : run
            = (exec get_default v (lit "title") (PStr (lit "Untitled Story")) in
               let* outline := subscript v (lit "outline") in
               let* printed := iterate outline in
               exec print_outline printed in
               let* outline := subscript v (lit "outline") in
               let* sections := iterate outline in
               let* done := story_loop api json_loads py_str sections [] []
                              (strip text) in
               match done.1 with
               | [] => ret None
               | _ =>
                   let* story_title :=
                     get_default v (lit "title")
                                 (PStr (lit "Generated Debate Story")) in
                   exec write_file fs_write_ok
                          (lit "generated_debate_story.txt") in
                   exec write_file fs_write_ok (lit "debate_log.json") in
                   exec write_file fs_write_ok (lit "token_usage_log.json") in
                   ret (Some (assemble py_str story_title done.1))
               end) g1).
  { unfold run, generate_complete_debate_story, read_story_prompt.
    rewrite Hf. destruct (strip text) as [|c p]; [done|].
    by rewrite (bind_return _ _ _ _ _ Ho), Hv. }
  split_and!; [| | |exact Hreq].
  - intros Hobj. rewrite Hrun.
    destruct v; try reflexivity. by destruct (Hobj d).
  - intros m -> Hout. rewrite Hrun.
    rewrite (bind_return _ _ _ _ _ (get_default_dict _ _ _ g1)).
    unfold bind at 1. unfold subscript. by rewrite Hout.
  - intros m o -> Hout Hshape. rewrite Hrun.
    rewrite (bind_return _ _ _ _ _ (get_default_dict _ _ _ g1)).
    rewrite (bind_return _ _ _ _ _ (subscript_lookup _ _ _ g1 Hout)).
    by destruct o.
Qed.

(** X11. When any section of the outline, even the last one, is not an
    object with [section], [title] and [summary], the run raises while
    printing the outline: after the outline request and before any
    debate request. *)
Theorem malformed_section_stops_the_run_before_any_debate
    text g m secs g1 :
  story_prompt_file = Some text ->
  strip text <> [] ->
  generate_story_outline api json_loads fs_write_ok (strip text) g
  = (Return (PDict m), g1) ->
  m !! lit "outline" = Some (PList secs) ->
  Exists (fun s => forall title summary section,
            ~ section_keys s title summary section) secs ->
  exists e,
    generate_complete_debate_story api json_loads py_str fs_write_ok
      story_prompt_file g = (Raise e, g1)
    /\ requests g1
       = requests g ++ [(outline_generator, outline_prompt (strip text))]
    /\ debate_log g1 = debate_log g.
Proof.
  intros Hf Hp Ho Hout Hbad.
  pose proof (outline_sends_one_request (strip text) g) as (_ & Hreq & Hlog).
  rewrite Ho in Hreq, Hlog.
  destruct (print_outline_malformed secs g1 Hbad) as [e He].
  exists e. split_and!; [|exact Hreq|exact Hlog].
  unfold generate_complete_debate_story, read_story_prompt. rewrite Hf.
  destruct (strip text) as [|c p]; [done|].
  rewrite (bind_return _ _ _ _ _ Ho).
  assert (Ht : truthy (PDict m) = true).
  { simpl. rewrite bool_decide_eq_false_2; [done|].
    intros ->. by rewrite lookup_empty in Hout. }
  rewrite Ht. cbn [negb].
  rewrite (bind_return _ _ _ _ _ (get_default_dict _ _ _ g1)).
  rewrite (bind_return _ _ _ _ _ (subscript_lookup _ _ _ g1 Hout)).
  unfold bind at 1. simpl iterate. unfold ret at 1.
  by rewrite (bind_raise _ _ _ _ _ He).
Qed.

(** ** What every run keeps *)

Section Respect.

Local Unset Default Proof Using.

(** A relation between generators that holds across every step of the
    program: across a request made in one of the four roles and across
    an append to the debate log. *)
Variable R : generator -> generator -> Prop.
Hypothesis R_refl : forall g, R g g.
Hypothesis R_trans : forall g1 g2 g3, R g1 g2 -> R g2 g3 -> R g1 g3.
Hypothesis R_call :
  forall prompt a, a ∈ roles -> respects R (_call_model api prompt a).
Hypothesis R_log : forall r, respects R (append_debate_log r).

Lemma respects_ret {A} (a : A) : respects R (ret a).
Proof. intros g. apply R_refl. Qed.

Lemma respects_raise {A} e : respects R (@raise A e).
Proof. intros g. apply R_refl. Qed.

Lemma respects_bind {A B} (m : M A) (k : A -> M B) :
  respects R m -> (forall a, respects R (k a)) -> respects R (bind m k).
Proof.
  intros Hm Hk g. unfold bind. specialize (Hm g).
  destruct (m g) as [[a|e] g1]; [|exact Hm].
  eapply R_trans; [exact Hm|apply Hk].
Qed.

Lemma respects_try_except {A} (body : M A) (handler : A) :
  respects R body -> respects R (try_except body handler).
Proof.
  intros Hm g. unfold try_except. specialize (Hm g).
  by destruct (body g) as [[a|e] g1].
Qed.

Lemma respects_subscript v key : respects R (subscript v key).
Proof.
  intros g. destruct (subscript v key g) as [o g1] eqn:E.
  apply subscript_state in E as ->. apply R_refl.
Qed.

Lemma respects_get_default v key dflt : respects R (get_default v key dflt).
Proof. intros g. destruct v; apply R_refl. Qed.

Lemma respects_iterate v : respects R (iterate v).
Proof. intros g. destruct v; apply R_refl. Qed.

Lemma respects_write_file name : respects R (write_file fs_write_ok name).
Proof. intros g. unfold write_file. destruct (fs_write_ok name); apply R_refl. Qed.

Lemma respects_print_outline secs : respects R (print_outline secs).
Proof.
  intros g. destruct (print_outline secs g) as [o g1] eqn:E.
  apply print_outline_state in E as ->. apply R_refl.
Qed.

Create HintDb respects.

Hint Resolve respects_ret respects_raise respects_subscript
  respects_get_default respects_iterate respects_write_file
  respects_print_outline : respects.

Ltac respects_tac :=
  repeat first
    [ solve [auto with respects]
    | apply respects_bind; [|intros ?]
    | apply respects_try_except
    | apply R_call; unfold roles; set_solver
    | apply R_log
    | match goal with
      | |- respects _ (match ?x with _ => _ end) => destruct x
      end ].

Lemma respects_outline p :
  respects R (generate_story_outline api json_loads fs_write_ok p).
Proof. unfold generate_story_outline. respects_tac. Qed.

Lemma respects_affirmative s ps p :
  respects R (affirmative_writer api py_str s ps p).
Proof. unfold affirmative_writer. respects_tac. Qed.

Lemma respects_negative s d ps p :
  respects R (negative_critic api py_str s d ps p).
Proof. unfold negative_critic. respects_tac. Qed.

Lemma respects_judge s d n ps :
  respects R (judge_editor api json_loads py_str s d n ps).
Proof. unfold judge_editor. respects_tac. Qed.

Hint Resolve respects_outline respects_affirmative respects_negative
  respects_judge : respects.

Lemma respects_section s ps p :
  respects R (generate_section_with_debate api json_loads py_str s ps p).
Proof. unfold generate_section_with_debate. respects_tac. Qed.

Hint Resolve respects_section : respects.

Lemma respects_story_loop secs : forall cs ps p,
  respects R (story_loop api json_loads py_str secs cs ps p).
Proof.
  induction secs as [|s secs IH]; intros cs ps p; simpl; respects_tac.
Qed.

Hint Resolve respects_story_loop : respects.

Lemma respects_run :
  respects R (generate_complete_debate_story api json_loads py_str
                fs_write_ok story_prompt_file).
Proof.
  unfold generate_complete_debate_story.
  destruct (read_story_prompt story_prompt_file); respects_tac.
Qed.

End Respect.

Lemma track_usage_dom a u t :
  dom (by_agent (track_usage a u t)) = dom (by_agent t).
Proof.
  unfold track_usage. simpl. destruct (by_agent t !! a) eqn:Ea; [|done].
  apply dom_insert_lookup_L. by eexists.
Qed.

(** X12. Whatever a run does, and whether it returns or raises, it
    only appends to the debate log (the records that were there stay,
    in place and unchanged) and it keeps the roles of the usage table
    as they are. *)
Theorem run_only_appends g :
  grows g (generate_complete_debate_story api json_loads py_str fs_write_ok
             story_prompt_file g).2.
Proof.
  apply (respects_run grows).
  - intros g0. by split.
  - intros g1 g2 g3 [H1 H2] [H3 H4]. split; [by etrans|congruence].
  - intros prompt a _ g0.
    destruct (call_model_usage api prompt a g0) as [E|(u & c & _ & E)];
      destruct (_call_model api prompt a g0) as [o g1] eqn:Ec;
      apply call_model_inv in Ec as (_ & Hlog & _); simpl in *;
      (split; [by rewrite Hlog|]); rewrite E; [done|].
    apply track_usage_dom.
  - intros r g0. split; [by apply prefix_app_r|done].
Qed.

Lemma call_model_usage_ok prompt a g :
  a ∈ roles -> usage_ok g -> usage_ok (_call_model api prompt a g).2.
Proof.
  intros Ha (Hs & Hr & Hc).
  destruct (_call_model api prompt a g) as [o g1] eqn:Ec.
  pose proof (call_model_usage api prompt a g) as Hu.
  rewrite Ec in Hu. simpl in Hu.
  apply call_model_inv in Ec as (_ & _ & Hreq). simpl.
  unfold usage_ok. rewrite Hreq, length_app. simpl.
  destruct Hu as [E|(u & c & _ & E)]; rewrite E.
  - split_and!; [done|done|lia].
  - split_and!.
    + apply track_usage_sums; auto.
    + intros b Hb. apply track_usage_roles. auto.
    + simpl. lia.
Qed.

(** X13. The accounting invariant is kept by every run, whether it
    returns or raises: when, before the run, the global prompt,
    completion and call counts are the sums of the per-role counts and
    no more calls are counted than requests were sent, the same holds
    after it. *)
Theorem run_keeps_usage_sums g :
  usage_ok g ->
  usage_ok (generate_complete_debate_story api json_loads py_str fs_write_ok
              story_prompt_file g).2.
Proof.
  apply (respects_run (fun g g' => usage_ok g -> usage_ok g')).
  - auto.
  - auto.
  - intros prompt a Ha g0. by apply call_model_usage_ok.
  - intros r g0. done.
Qed.

Lemma section_trace_length s ps p tr :
  section_trace py_str p s ps tr -> (1 <= length tr <= 3)%nat.
Proof.
  intros (t & u & n & _ & [->|[d [->|[nd ->]]]]); simpl; lia.
Qed.

(** X14. A section loop that returns has sent at least one request for
    every section it completed and at most three for every section of
    the outline. *)
Theorem loop_sends_one_to_three_requests_per_section secs p g cs ps g' :
  story_loop api json_loads py_str secs [] [] p g = (Return (cs, ps), g') ->
  (length (requests g) + length ps <= length (requests g')
   <= length (requests g) + 3 * length secs)%nat.
Proof.
  intros H.
  apply story_loop_run in H
    as (finals & traces & recs & -> & _ & Hlen & _ & Hreq & Htraces
        & Hctx & _).
  cbn [app] in *. rewrite Hreq, length_app.
  assert (Hb : forall k s tr, secs !! k = Some s -> traces !! k = Some tr ->
                 (1 <= length tr <= 3)%nat).
  { intros k s tr Hs Ht. eapply section_trace_length. eauto. }
  assert (Hlt : (length finals <= length traces)%nat) by lia.
  assert (Hle : (length traces <= length secs)%nat) by lia.
  clear Hctx Hreq Htraces Hlen.
  assert (Hsum : (length traces <= length (concat traces)
                  <= 3 * length traces)%nat).
  { clear Hlt. revert secs Hb Hle.
    induction traces as [|tr traces IH]; intros secs Hb Hle.
    - simpl. lia.
    - destruct secs as [|s secs]; [simpl in Hle; lia|].
      pose proof (Hb 0%nat s tr eq_refl eq_refl) as H0.
      assert (IH' : (length traces <= length (concat traces)
                     <= 3 * length traces)%nat).
      { apply (IH secs).
        - intros k s' tr' Hs Ht. exact (Hb (S k) s' tr' Hs Ht).
        - simpl in Hle. lia. }
      simpl. rewrite length_app. lia. }
  lia.
Qed.

Lemma enumerate_app {A} (start : nat) (l1 l2 : list A) :
  enumerate start (l1 ++ l2)
  = enumerate start l1 ++ enumerate (start + length l1) l2.
Proof.
  revert start. induction l1 as [|x l1 IH]; intros start; simpl.
  - by rewrite Nat.add_0_r.
  - rewrite IH. by rewrite Nat.add_succ_r.
Qed.

(** X15. The context text grows by one block per finalized section:
    the context for the sections [ps ++ [v]] is the context for [ps]
    (or the heading, when [ps] is empty) followed by the block of [v],
    numbered by its position counted from 1. *)
Theorem context_grows_by_one_block ps v :
  build_context py_str (ps ++ [v])
  = match ps with
    | [] => nl ++ nl ++ lit "Previous sections of the story:" ++ nl
    | _ => build_context py_str ps
    end
    ++ nl ++ lit "--- Section " ++ str_of_nat (S (length ps)) ++ lit " ---"
    ++ nl ++ fmt py_str v ++ nl.
Proof.
  unfold build_context.
  destruct (ps ++ [v]) as [|x l] eqn:E; [by destruct ps|]. rewrite <- E.
  rewrite enumerate_app, fold_left_app. cbn [enumerate fold_left].
  by destruct ps.
Qed.

(** X16. An outline whose [outline] is an empty list lets the run end
    with [None] after the outline request alone: no debate is started
    and no story is written. *)
Theorem empty_outline_gives_no_story text g m g1 :
  story_prompt_file = Some text ->
  strip text <> [] ->
  generate_story_outline api json_loads fs_write_ok (strip text) g
  = (Return (PDict m), g1) ->
  m !! lit "outline" = Some (PList []) ->
  generate_complete_debate_story api json_loads py_str fs_write_ok
    story_prompt_file g = (Return None, g1)
  /\ requests g1
     = requests g ++ [(outline_generator, outline_prompt (strip text))].
Proof.
  intros Hf Hp Ho Hout.
  pose proof (outline_sends_one_request (strip text) g) as (_ & Hreq & _).
  rewrite Ho in Hreq. split; [|exact Hreq].
  unfold generate_complete_debate_story, read_story_prompt. rewrite Hf.
  destruct (strip text) as [|c p]; [done|].
  rewrite (bind_return _ _ _ _ _ Ho).
  assert (Ht : truthy (PDict m) = true).
  { simpl. rewrite bool_decide_eq_false_2; [done|].
    intros ->. by rewrite lookup_empty in Hout. }
  rewrite Ht. cbn [negb].
  rewrite (bind_return _ _ _ _ _ (get_default_dict _ _ _ g1)).
  rewrite (bind_return _ _ _ _ _ (subscript_lookup _ _ _ g1 Hout)).
  cbv [bind iterate print_outline ret subscript]. rewrite Hout.
  reflexivity.
Qed.

(** X17. A section completed by fallback counts like any other: when
    the negative request gives nothing usable, the loop goes on with
    the next section, the affirmative draft being both the section's
    entry in the story and the text added to the context. *)
Theorem fallback_section_feeds_the_next
    s title summary section rest cs ps p g d g1 r g2 :
  section_keys s title summary section ->
  affirmative_writer api py_str s ps p g = (Return (Some d), g1) ->
  d <> [] ->
  negative_critic api py_str s d ps p g1 = (Return r, g2) ->
  truthy_opt r = false ->
  story_loop api json_loads py_str (s :: rest) cs ps p g
  = story_loop api json_loads py_str rest
      (cs ++ [lit "## " ++ fmt py_str title ++ nl ++ nl ++ d])
      (ps ++ [PStr d]) p g2.
Proof.
  intros Hk Haff Hd Hneg Hr.
  assert (Hs : generate_section_with_debate api json_loads py_str s ps p g
               = (Return (PStr d), g2)).
  { unfold generate_section_with_debate.
    rewrite (section_prologue _ _ _ _ _ _ Hk).
    rewrite (bind_return _ _ _ _ _ Haff).
    destruct d as [|c d]; [done|].
    rewrite (bind_return _ _ _ _ _ Hneg).
    by destruct r as [[|c' r]|]. }
  rewrite (story_loop_step _ _ _ _ _ _ _ _ _ _ _ Hs).
  rewrite (section_keys_title _ _ _ _ Hk).
  by destruct d.
Qed.

(** The usage counts of [g'] are at least those of [g]. *)
Lemma track_usage_monotone a u t :
  0 <= u_prompt_tokens u -> 0 <= u_completion_tokens u ->
  0 <= u_total_tokens u ->
  total_prompt_tokens t <= total_prompt_tokens (track_usage a u t)
  /\ total_completion_tokens t <= total_completion_tokens (track_usage a u t)
  /\ total_tokens t <= total_tokens (track_usage a u t)
  /\ api_calls t <= api_calls (track_usage a u t).
Proof. intros. simpl. lia. Qed.

(** X18. The global counts only grow: when every usage block the
    service sends has non-negative counts, no run, returning or
    raising, lowers the global prompt, completion or total token count
    or the call count. *)
Theorem run_never_lowers_the_totals g :
  (forall n prompt a u content,
     api n prompt a = ApiResponse (Some u) content ->
     0 <= u_prompt_tokens u /\ 0 <= u_completion_tokens u
     /\ 0 <= u_total_tokens u) ->
  let t := token_usage g in
  let t' := token_usage
              (generate_complete_debate_story api json_loads py_str
                 fs_write_ok story_prompt_file g).2 in
  total_prompt_tokens t <= total_prompt_tokens t'
  /\ total_completion_tokens t <= total_completion_tokens t'
  /\ total_tokens t <= total_tokens t'
  /\ api_calls t <= api_calls t'.
Proof.
  intros Hapi.
  apply (respects_run
           (fun g g' =>
              total_prompt_tokens (token_usage g)
              <= total_prompt_tokens (token_usage g')
              /\ total_completion_tokens (token_usage g)
                 <= total_completion_tokens (token_usage g')
              /\ total_tokens (token_usage g) <= total_tokens (token_usage g')
              /\ api_calls (token_usage g) <= api_calls (token_usage g'))).
  - intros g0. lia.
  - intros g1 g2 g3 ? ?. lia.
  - intros prompt a _ g0.
    destruct (call_model_usage api prompt a g0) as [E|(u & c & Hu & E)];
      simpl in E; rewrite E; [lia|].
    destruct (Hapi _ _ _ _ _ Hu) as (? & ? & ?).
    by apply track_usage_monotone.
  - intros r g0. simpl. lia.
Qed.
End Extras.

(** ** The properties on the example worlds *)

Lemma fenced_outline_witness :
  (generate_story_outline More.padded_outline More.json_loads
     Sample.all_writes_ok Sample.prompt init).1
  = Return (Sample.outline_obj [Sample.section1]).
Proof.
  rewrite (fenced_outline_is_decoded
             More.padded_outline More.json_loads Sample.all_writes_ok
             Sample.prompt init None (lit "  ") Sample.outline1_text nl).
  - vm_compute. reflexivity.
  - repeat constructor.
  - repeat constructor.
  - reflexivity.
Defined.

Lemma full_debate_witness :
  exists g4,
    generate_section_with_debate More.full_debate More.json_loads
      Sample.py_str Sample.section1 [] Sample.prompt init
    = (Return (PStr (lit "F1")), g4)
    /\ debate_log g4
       = [mk_debate_record (PInt 1) (PStr (lit "T1")) (lit "A1") (lit "N1")
                           (PDict Sample.decision_obj)]
    /\ length (requests g4) = 3%nat.
Proof.
  set (api := More.full_debate).
  set (g1 := (affirmative_writer api Sample.py_str Sample.section1 []
                Sample.prompt init).2).
  set (g2 := (negative_critic api Sample.py_str Sample.section1 (lit "A1") []
                Sample.prompt g1).2).
  set (text := lit "```json" ++ nl ++ Sample.decision_text ++ nl ++ lit "```").
  set (g3 := (_call_model api
                (judge_prompt (lit "1") (lit "T1") (lit "S1") (lit "A1")
                              (lit "N1"))
                judge_editor_role g2).2).
  destruct (full_debate_returns_final_section
              api More.json_loads Sample.py_str Sample.section1
              (PStr (lit "T1")) (PStr (lit "S1")) (PInt 1) [] Sample.prompt
              init (lit "A1") g1 (lit "N1") g2 text g3 Sample.decision_obj
              (PStr (lit "refined")) (PStr (lit "R")) (PStr (lit "F1")))
    as (g4 & Hrun & Hlog & Hreq).
  - exact sample_section1_keys.
  - vm_compute. reflexivity.
  - discriminate.
  - vm_compute. reflexivity.
  - discriminate.
  - vm_compute. reflexivity.
  - discriminate.
  - vm_compute. reflexivity.
  - vm_compute. reflexivity.
  - vm_compute. reflexivity.
  - vm_compute. reflexivity.
  - exists g4. split_and!; [exact Hrun|exact Hlog|].
    rewrite Hreq. reflexivity.
Defined.

Lemma falsy_decision_witness :
  exists g4,
    generate_section_with_debate More.empty_decision More.json_loads
      Sample.py_str Sample.section1 [] Sample.prompt init
    = (Return (PStr (lit "A1")), g4)
    /\ debate_log g4
       = [mk_debate_record (PInt 1) (PStr (lit "T1")) (lit "A1") (lit "N1")
                           (PDict ∅)].
Proof.
  set (api := More.empty_decision).
  set (g1 := (affirmative_writer api Sample.py_str Sample.section1 []
                Sample.prompt init).2).
  set (g2 := (negative_critic api Sample.py_str Sample.section1 (lit "A1") []
                Sample.prompt g1).2).
  set (g3 := (_call_model api
                (judge_prompt (lit "1") (lit "T1") (lit "S1") (lit "A1")
                              (lit "N1"))
                judge_editor_role g2).2).
  apply (falsy_decision_is_recorded_and_ignored
           api More.json_loads Sample.py_str Sample.section1
           (PStr (lit "T1")) (PStr (lit "S1")) (PInt 1) [] Sample.prompt
           init (lit "A1") g1 (lit "N1") g2 (lit "{}") g3 (PDict ∅)).
  - exact sample_section1_keys.
  - vm_compute. reflexivity.
  - discriminate.
  - vm_compute. reflexivity.
  - discriminate.
  - vm_compute. reflexivity.
  - discriminate.
  - vm_compute. reflexivity.
  - reflexivity.
Defined.

Lemma non_object_decision_witness :
  exists g4,
    generate_section_with_debate More.list_decision More.json_loads
      Sample.py_str Sample.section1 [] Sample.prompt init
    = (Raise TypeError, g4)
    /\ debate_log g4
       = debate_log init
         ++ [mk_debate_record (PInt 1) (PStr (lit "T1")) (lit "A1") (lit "N1")
                              (PList [PInt 1])]
    /\ forall rest complete_story,
         story_loop More.list_decision More.json_loads Sample.py_str
           (Sample.section1 :: rest) complete_story [] Sample.prompt init
         = (Raise TypeError, g4).
Proof.
  set (api := More.list_decision).
  set (g1 := (affirmative_writer api Sample.py_str Sample.section1 []
                Sample.prompt init).2).
  set (g2 := (negative_critic api Sample.py_str Sample.section1 (lit "A1") []
                Sample.prompt g1).2).
  set (g3 := (_call_model api
                (judge_prompt (lit "1") (lit "T1") (lit "S1") (lit "A1")
                              (lit "N1"))
                judge_editor_role g2).2).
  apply (non_object_decision_raises_type_error
           api More.json_loads Sample.py_str Sample.section1
           (PStr (lit "T1")) (PStr (lit "S1")) (PInt 1) [] Sample.prompt
           init (lit "A1") g1 (lit "N1") g2 (lit "[1]") g3 (PList [PInt 1])).
  - exact sample_section1_keys.
  - vm_compute. reflexivity.
  - discriminate.
  - vm_compute. reflexivity.
  - discriminate.
  - vm_compute. reflexivity.
  - discriminate.
  - vm_compute. reflexivity.
  - reflexivity.
  - discriminate.
Defined.

Lemma section_no_summary_has_no_keys title summary section :
  ~ section_keys More.section_no_summary title summary section.
Proof.
  intros (m & [= <-] & _ & Hs & _). vm_compute in Hs. discriminate.
Qed.

Lemma malformed_section_witness :
  exists e,
    generate_section_with_debate Runs.two_sections Sample.json_loads
      Sample.py_str More.section_no_summary [] Sample.prompt init
    = (Raise e, init)
    /\ (e = TypeError
        \/ e = KeyError (lit "section")
        \/ e = KeyError (lit "title")
        \/ e = KeyError (lit "summary")).
Proof.
  apply (malformed_section_raises_before_any_request
           Runs.two_sections Sample.json_loads Sample.py_str
           More.section_no_summary [] Sample.prompt init).
  exact section_no_summary_has_no_keys.
Defined.

Lemma blank_prompt_witness :
  generate_complete_debate_story Runs.two_sections Sample.json_loads
    Sample.py_str Sample.all_writes_ok More.blank_file init
  = (Return None, init).
Proof.
  apply (blank_prompt_ends_the_run
           Runs.two_sections Sample.json_loads Sample.py_str
           Sample.all_writes_ok More.blank_file init).
  right. exists (lit "  " ++ nl). split; [reflexivity|repeat constructor].
Defined.

Lemma unusable_outline_witness :
  let g1 := (generate_story_outline More.outline_not_json More.json_loads
               Sample.all_writes_ok Sample.prompt init).2 in
  generate_complete_debate_story More.outline_not_json More.json_loads
    Sample.py_str Sample.all_writes_ok Runs.prompt_file init
  = (Return None, g1)
  /\ length (requests g1) = 1%nat
  /\ debate_log g1 = [].
Proof.
  intros g1.
  destruct (unusable_outline_ends_the_run
              More.outline_not_json More.json_loads Sample.py_str
              Sample.all_writes_ok Runs.prompt_file
              (lit "A boy finds a light in the forest") init PNone g1)
    as (Hrun & Hreq & Hlog).
  - reflexivity.
  - vm_compute. discriminate.
  - vm_compute. reflexivity.
  - reflexivity.
  - split_and!; [exact Hrun|by rewrite Hreq|exact Hlog].
Defined.

Lemma malformed_outline_witness :
  let g1 := (generate_story_outline More.outline_is_list More.json_loads
               Sample.all_writes_ok Sample.prompt init).2 in
  generate_complete_debate_story More.outline_is_list More.json_loads
    Sample.py_str Sample.all_writes_ok Runs.prompt_file init
  = (Raise AttributeError, g1)
  /\ length (requests g1) = 1%nat.
Proof.
  intros g1.
  destruct (malformed_outline_raises
              More.outline_is_list More.json_loads Sample.py_str
              Sample.all_writes_ok Runs.prompt_file
              (lit "A boy finds a light in the forest") init
              (PList [PInt 1]) g1)
    as (Hrun & _ & _ & Hreq).
  - reflexivity.
  - vm_compute. discriminate.
  - vm_compute. reflexivity.
  - reflexivity.
  - split; [apply Hrun; discriminate|by rewrite Hreq].
Defined.

Lemma malformed_section_stops_witness :
  let g1 := (generate_story_outline More.outline_bad_section More.json_loads
               Sample.all_writes_ok Sample.prompt init).2 in
  exists e,
    generate_complete_debate_story More.outline_bad_section More.json_loads
      Sample.py_str Sample.all_writes_ok Runs.prompt_file init
    = (Raise e, g1)
    /\ length (requests g1) = 1%nat
    /\ debate_log g1 = [].
Proof.
  intros g1.
  destruct (malformed_section_stops_the_run_before_any_debate
              More.outline_bad_section More.json_loads Sample.py_str
              Sample.all_writes_ok Runs.prompt_file
              (lit "A boy finds a light in the forest") init
              (<[lit "title" := PStr (lit "Tale")]>
               (<[lit "outline" := PList [More.section_no_summary]]> ∅))
              [More.section_no_summary] g1)
    as (e & Hrun & Hreq & Hlog).
  - reflexivity.
  - vm_compute. discriminate.
  - vm_compute. reflexivity.
  - vm_compute. reflexivity.
  - constructor. exact section_no_summary_has_no_keys.
  - exists e. split_and!; [exact Hrun|by rewrite Hreq|exact Hlog].
Defined.

Lemma init_usage_ok : usage_ok init.
Proof.
  split_and!.
  - unfold usage_sums. by rewrite !sum_by_agent_init.
  - apply init_roles.
  - done.
Qed.

Lemma run_keeps_usage_sums_witness :
  usage_ok (generate_complete_debate_story Runs.two_sections
              Sample.json_loads Sample.py_str Sample.all_writes_ok
              Runs.prompt_file init).2.
Proof.
  apply (run_keeps_usage_sums
           Runs.two_sections Sample.json_loads Sample.py_str
           Sample.all_writes_ok Runs.prompt_file init).
  exact init_usage_ok.
Defined.

Lemma loop_requests_witness :
  let g1 := (generate_story_outline Runs.two_sections Sample.json_loads
               Sample.all_writes_ok Sample.prompt init).2 in
  let run := story_loop Runs.two_sections Sample.json_loads Sample.py_str
               [Sample.section1; Sample.section2] [] [] Sample.prompt g1 in
  (length (requests g1) + 2 <= length (requests run.2)
   <= length (requests g1) + 3 * 2)%nat.
Proof.
  intros g1 run.
  apply (loop_sends_one_to_three_requests_per_section
           Runs.two_sections Sample.json_loads Sample.py_str
           [Sample.section1; Sample.section2] Sample.prompt g1
           [lit "## T1" ++ nl ++ nl ++ lit "F1";
            lit "## T2" ++ nl ++ nl ++ lit "A2"]
           [PStr (lit "F1"); PStr (lit "A2")] run.2).
  vm_compute. reflexivity.
Defined.

Lemma empty_outline_witness :
  let g1 := (generate_story_outline More.outline_empty More.json_loads
               Sample.all_writes_ok Sample.prompt init).2 in
  generate_complete_debate_story More.outline_empty More.json_loads
    Sample.py_str Sample.all_writes_ok Runs.prompt_file init
  = (Return None, g1)
  /\ length (requests g1) = 1%nat.
Proof.
  intros g1.
  destruct (empty_outline_gives_no_story
              More.outline_empty More.json_loads Sample.py_str
              Sample.all_writes_ok Runs.prompt_file
              (lit "A boy finds a light in the forest") init
              (<[lit "title" := PStr (lit "Tale")]>
               (<[lit "outline" := PList []]> ∅)) g1)
    as (Hrun & Hreq).
  - reflexivity.
  - vm_compute. discriminate.
  - vm_compute. reflexivity.
  - vm_compute. reflexivity.
  - split; [exact Hrun|by rewrite Hreq].
Defined.

Lemma fallback_feeds_next_witness :
  let api := Runs.negative_fails in
  let g1 := (affirmative_writer api Sample.py_str Sample.section1 []
               Sample.prompt init).2 in
  let g2 := (negative_critic api Sample.py_str Sample.section1 (lit "A1") []
               Sample.prompt g1).2 in
  story_loop api Sample.json_loads Sample.py_str
    [Sample.section1; Sample.section2] [] [] Sample.prompt init
  = story_loop api Sample.json_loads Sample.py_str [Sample.section2]
      ([] ++ [lit "## " ++ fmt Sample.py_str (PStr (lit "T1")) ++ nl ++ nl
              ++ lit "A1"])
      ([] ++ [PStr (lit "A1")]) Sample.prompt g2.
Proof.
  intros api g1 g2.
  apply (fallback_section_feeds_the_next
           api Sample.json_loads Sample.py_str Sample.section1
           (PStr (lit "T1")) (PStr (lit "S1")) (PInt 1) [Sample.section2]
           [] [] Sample.prompt init (lit "A1") g1 None g2).
  - exact sample_section1_keys.
  - vm_compute. reflexivity.
  - discriminate.
  - vm_compute. reflexivity.
  - reflexivity.
Defined.

Lemma two_sections_usage_nonnegative n prompt a u content :
  Runs.two_sections n prompt a = ApiResponse (Some u) content ->
  0 <= u_prompt_tokens u /\ 0 <= u_completion_tokens u
  /\ 0 <= u_total_tokens u.
Proof.
  unfold Runs.two_sections, Sample.script_api.
  do 7 (destruct n as [|n]; [intros [= <- _]; simpl; lia|]); discriminate.
Qed.

Lemma totals_never_lowered_witness :
  let t := token_usage init in
  let t' := token_usage
              (generate_complete_debate_story Runs.two_sections
                 Sample.json_loads Sample.py_str Sample.all_writes_ok
                 Runs.prompt_file init).2 in
  total_prompt_tokens t <= total_prompt_tokens t'
  /\ total_completion_tokens t <= total_completion_tokens t'
  /\ total_tokens t <= total_tokens t'
  /\ api_calls t <= api_calls t'.
Proof.
  apply (run_never_lowers_the_totals
           Runs.two_sections Sample.json_loads Sample.py_str
           Sample.all_writes_ok Runs.prompt_file init).
  exact two_sections_usage_nonnegative.
Defined.
